(** * NeMo adapter glue, Griffin model and multimodal tokens

    A shallow embedding of three source files:

    - [nemo/collections/vlm/neva/data/multimodal_tokens.py]
    - [nemo/collections/nlp/modules/common/megatron/adapters/mcore_mixins.py]
    - [nemo/collections/nlp/models/language_modeling/megatron/griffin/griffin_model.py]

    Python objects that are patched in place live in a store; methods that
    only read [self] take a record of the attributes they read.  Calls into
    the training framework (linear layers, activations, adapters) are
    functions carried by those records or section variables. *)

From stdpp Require Import gmap strings list fin_maps.
From Stdlib Require Import ZArith Lia.

(** ** Python exceptions and results *)

Module Py.

Inductive PyExc :=
| NotImplementedError
| AttributeError
| ValueError
| AssertionError
| RuntimeError
| IndexError
| ZeroDivisionError
| TypeError
| DanglingReference. (* not a Python exception: the store is not well formed *)

Inductive result (A : Type) :=
| Ok (a : A)
| Raise (e : PyExc).

Arguments Ok {A} a.
Arguments Raise {A} e.

#[global] Instance result_ret : MRet result := fun A a => Ok a.

#[global] Instance result_bind : MBind result := fun A B k r =>
  match r with
  | Ok a => k a
  | Raise e => Raise e
  end.

(** [assert c] *)
Definition py_assert (c : bool) : result unit :=
  if c then Ok tt else Raise AssertionError.

End Py.

Export Py.

(** ** multimodal_tokens.py *)

Module MultimodalTokens.

Definition IGNORE_INDEX : Z := -100.
Definition IMAGE_TOKEN_INDEX : Z := -200.
Definition VIDEO_TOKEN_INDEX : Z := -300.

(** [@dataclass class MultiModalToken]; [Callable] is the type of encoder
    functions. *)
Record MultiModalToken (Callable : Type) := {
  token_str : string;
  token_index : Z;
  media_type : string;
  use_start_end : bool;
  encoder_fn : option Callable;
}.

Arguments token_str {Callable} _.
Arguments token_index {Callable} _.
Arguments media_type {Callable} _.
Arguments use_start_end {Callable} _.
Arguments encoder_fn {Callable} _.

(** The generated [__init__] of a dataclass: every field is a keyword
    argument; an omitted argument ([None] here) takes the field's default.
    [encoder_fn] keeps the default [None] of the base class. *)
Definition ImageToken {Callable : Type}
  (token_str' : option string) (token_index' : option Z)
  (media_type' : option string) (use_start_end' : option bool)
  (encoder_fn' : option Callable) : MultiModalToken Callable :=
  {| token_str := default "<image>"%string token_str';
     token_index := default (-200)%Z token_index';
     media_type := default "image"%string media_type';
     use_start_end := default false use_start_end';
     encoder_fn := encoder_fn' |}.

Definition VideoToken {Callable : Type}
  (token_str' : option string) (token_index' : option Z)
  (media_type' : option string) (use_start_end' : option bool)
  (encoder_fn' : option Callable) : MultiModalToken Callable :=
  {| token_str := default "<video>"%string token_str';
     token_index := default (-300)%Z token_index';
     media_type := default "video"%string media_type';
     use_start_end := default false use_start_end';
     encoder_fn := encoder_fn' |}.

End MultimodalTokens.

(** ** mcore_mixins.py: class swapping on the object store *)

Module ClassSwap.

Abbreviation loc := nat (only parsing).

(** Classes that a module's [__class__] can point to. *)
Inductive PyClass :=
| SelfAttention
| MLP
| LanguageModelEmbedding
| TransformerLayer
| TEColumnParallelLinear
| TELayerNormColumnParallelLinear
| MCoreAdapterModuleMixin
| MCoreSelfAttentionMixin
| MCoreMLPMixin
| MCoreGPTEmbeddingMixin
| MCoreTransformerLayerMixin
| OtherClass (name : string).

#[global] Instance PyClass_eq_dec : EqDecision PyClass.
Proof. solve_decision. Defined.

(** Adapter configuration classes imported from [parallel_adapters]. *)
Inductive AdapterConfig :=
| InfusedAdapterConfig
| LoraKQVAdapterConfig
| MLPInfusedAdapterConfig
| ParallelLinearAdapterConfig
| PromptEncoderAdapterConfig.

(** Attribute values: primitives, or a reference to another object
    (submodules, parameters, configuration objects). *)
Inductive Value :=
| VNone
| VBool (b : bool)
| VInt (z : Z)
| VStr (s : string)
| VRef (l : loc).

#[global] Instance Value_eq_dec : EqDecision Value.
Proof. solve_decision. Defined.

(** An [nn.Module] instance: its class pointer, the adapter types it
    accepts and its remaining attributes. *)
Record PyObject := {
  ob_class : PyClass;
  accepted_adapter_types : gset string;
  ob_dict : gmap string Value;
}.

Definition set_class (c : PyClass) (o : PyObject) : PyObject :=
  {| ob_class := c;
     accepted_adapter_types := accepted_adapter_types o;
     ob_dict := ob_dict o |}.

Definition set_accepted (s : gset string) (o : PyObject) : PyObject :=
  {| ob_class := ob_class o;
     accepted_adapter_types := s;
     ob_dict := ob_dict o |}.

Definition set_attr (a : string) (v : Value) (o : PyObject) : PyObject :=
  {| ob_class := ob_class o;
     accepted_adapter_types := accepted_adapter_types o;
     ob_dict := <[a := v]> (ob_dict o) |}.

(** Statements run on the store; an exception keeps the writes made
    before it. *)
Definition Stmt := gmap loc PyObject -> gmap loc PyObject * result unit.

Definition seq (s1 s2 : Stmt) : Stmt :=
  fun h =>
    match s1 h with
    | (h1, Ok _) => s2 h1
    | (h1, Raise e) => (h1, Raise e)
    end.

Definition raise (e : PyExc) : Stmt := fun h => (h, Raise e).

(** [obj.__class__ = c], for a class [c] of the object's layout, as the
    concrete mixins are for the modules they patch; Python refuses a class of
    another layout. *)
Definition assign_class (obj : loc) (c : PyClass) : Stmt :=
  fun h =>
    match h !! obj with
    | Some o => (<[obj := set_class c o]> h, Ok tt)
    | None => (h, Raise DanglingReference)
    end.

(** Modelled from the spec: [AdapterModuleMixin.set_accepted_adapter_types]
    of [nemo.core.adapter_mixins] is not among the sources; it replaces the
    module's accepted-adapter-type registration by the given types. *)
Definition set_accepted_adapter_types (self : loc) (types : list string) : Stmt :=
  fun h =>
    match h !! self with
    | Some o => (<[self := set_accepted (list_to_set types) o]> h, Ok tt)
    | None => (h, Raise DanglingReference)
    end.

(** [self.<sub>.<a> = v]: the attribute [sub] of [self] must hold an object. *)
Definition assign_sub_attr (self : loc) (sub a : string) (v : Value) : Stmt :=
  fun h =>
    match h !! self with
    | None => (h, Raise DanglingReference)
    | Some o =>
        match ob_dict o !! sub with
        | Some (VRef l) =>
            match h !! l with
            | Some ol => (<[l := set_attr a v ol]> h, Ok tt)
            | None => (h, Raise DanglingReference)
            end
        | _ => (h, Raise AttributeError)
        end
    end.

Section Register.

(** [<Config>._target_]: the class path of the adapter a configuration
    builds. *)
Variable _target_ : AdapterConfig -> string.

(** [self.mcore_register_adapters()], resolved on the class of [self]. *)
Definition mcore_register_adapters (self : loc) : Stmt :=
  fun h =>
    match h !! self with
    | None => (h, Raise DanglingReference)
    | Some o =>
        match ob_class o with
        | MCoreAdapterModuleMixin => raise NotImplementedError h
        | MCoreSelfAttentionMixin =>
            seq (set_accepted_adapter_types self
                   [_target_ LoraKQVAdapterConfig; _target_ InfusedAdapterConfig])
                (assign_sub_attr self "linear_qkv" "return_layernorm_output" (VBool true)) h
        | MCoreMLPMixin =>
            set_accepted_adapter_types self [_target_ MLPInfusedAdapterConfig] h
        | MCoreGPTEmbeddingMixin =>
            set_accepted_adapter_types self [_target_ PromptEncoderAdapterConfig] h
        | MCoreTransformerLayerMixin =>
            set_accepted_adapter_types self [_target_ ParallelLinearAdapterConfig] h
        | _ => raise AttributeError h
        end
    end.

Definition swap_mcore_mixin (module : loc) (mcore_mixin : PyClass) : Stmt :=
  seq (assign_class module mcore_mixin) (mcore_register_adapters module).

(** The adapter types of each mixin's fine-tuning method, as the
    specification lists them. *)
Definition peft_adapter_types (mixin : PyClass) : gset string :=
  match mixin with
  | MCoreSelfAttentionMixin =>
      {[ _target_ LoraKQVAdapterConfig; _target_ InfusedAdapterConfig ]}
  | MCoreMLPMixin => {[ _target_ MLPInfusedAdapterConfig ]}
  | MCoreGPTEmbeddingMixin => {[ _target_ PromptEncoderAdapterConfig ]}
  | MCoreTransformerLayerMixin => {[ _target_ ParallelLinearAdapterConfig ]}
  | _ => ∅
  end.

Definition is_concrete_mixin (mixin : PyClass) : bool :=
  match mixin with
  | MCoreSelfAttentionMixin | MCoreMLPMixin
  | MCoreGPTEmbeddingMixin | MCoreTransformerLayerMixin => true
  | _ => false
  end.

End Register.

(** What the claim about the swap's footprint says: no object appears or
    disappears, only the module's class pointer and registration change. *)
Definition only_class_and_registration_change
  (module : loc) (h h' : gmap loc PyObject) : Prop :=
  dom h' = dom h
  ∧ ∀ l o, h !! l = Some o ->
      ∃ o', h' !! l = Some o'
            ∧ ob_dict o' = ob_dict o
            ∧ (l ≠ module ->
               ob_class o' = ob_class o
               ∧ accepted_adapter_types o' = accepted_adapter_types o).

(** A self-attention module whose fused projection does not yet return
    its layernorm output. *)
Definition example_target (c : AdapterConfig) : string :=
  match c with
  | InfusedAdapterConfig => "parallel_adapters.InfusedAdapter"
  | LoraKQVAdapterConfig => "parallel_adapters.LoraKQVAdapter"
  | MLPInfusedAdapterConfig => "parallel_adapters.MLPInfusedAdapter"
  | ParallelLinearAdapterConfig => "parallel_adapters.ParallelLinearAdapter"
  | PromptEncoderAdapterConfig => "parallel_adapters.PromptEncoderAdapter"
  end.

Definition example_attention : PyObject :=
  {| ob_class := SelfAttention;
     accepted_adapter_types := ∅;
     ob_dict := {[ "linear_qkv" := VRef 2; "layer_number" := VInt 1 ]} |}.

Definition example_linear_qkv : PyObject :=
  {| ob_class := TELayerNormColumnParallelLinear;
     accepted_adapter_types := ∅;
     ob_dict := {[ "return_layernorm_output" := VBool false; "weight" := VRef 3 ]} |}.

Definition example_weight : PyObject :=
  {| ob_class := OtherClass "Parameter";
     accepted_adapter_types := ∅;
     ob_dict := ∅ |}.

Definition example_store : gmap loc PyObject :=
  {[ 1 := example_attention; 2 := example_linear_qkv; 3 := example_weight ]}.

End ClassSwap.

(** ** Tensors: shapes over row-major data *)

Module Torch.

Section Tensors.

Context {elt : Type}.

Record Tensor := {
  shape : list nat;
  data : list elt;
}.

Definition prod (dims : list nat) : nat := foldr Nat.mul 1 dims.

Definition numel (t : Tensor) : nat := prod (shape t).

(** Row-major storage holds exactly [numel] entries. *)
Definition well_formed (t : Tensor) : Prop := length (data t) = numel t.

(** [t.size(i)] *)
Definition size (t : Tensor) (i : nat) : result nat :=
  match shape t !! i with
  | Some d => Ok d
  | None => Raise IndexError
  end.

(** [t.view] on explicit dimensions. *)
Definition view (t : Tensor) (dims : list nat) : result Tensor :=
  if decide (prod dims = numel t)
  then Ok {| shape := dims; data := data t |}
  else Raise RuntimeError.

(** Size inference of [reshape]: [None] stands for the argument [-1]. *)
Definition known_dims (dims : list (option nat)) : list nat :=
  omap id dims.

Definition infer_size (dims : list (option nat)) (n : nat) : result (list nat) :=
  let known := prod (known_dims dims) in
  match length dims - length (known_dims dims) with
  | 0 => if decide (known = n) then Ok (known_dims dims) else Raise RuntimeError
  | 1 =>
      if decide (known = 0) then Raise RuntimeError
      else if decide (n mod known = 0)
           then Ok (map (default (n / known)) dims)
           else Raise RuntimeError
  | _ => Raise RuntimeError
  end.

(** [t.reshape] on the given dimensions *)
Definition reshape (t : Tensor) (dims : list (option nat)) : result Tensor :=
  new_shape ← infer_size dims (numel t);
  Ok {| shape := new_shape; data := data t |}.

(** [k] consecutive chunks of [n] entries. *)
Fixpoint chunks (n k : nat) (l : list elt) : list (list elt) :=
  match k with
  | 0 => []
  | S k' => take n l :: chunks n k' (drop n l)
  end.

(** [t.narrow(dim, start, len)]: entries [start .. start+len) along [dim]. *)
Definition narrow (t : Tensor) (dim start len : nat) : Tensor :=
  let outer := prod (take dim (shape t)) in
  let d := default 0 (shape t !! dim) in
  let inner := prod (drop (S dim) (shape t)) in
  {| shape := <[dim := len]> (shape t);
     data := concat (map (fun blk => take (len * inner) (drop (start * inner) blk))
                         (chunks (d * inner) outer (data t))) |}.

Fixpoint split_sections (t : Tensor) (dim start : nat) (sections : list nat)
  : list Tensor :=
  match sections with
  | [] => []
  | s :: rest => narrow t dim start s :: split_sections t dim (start + s) rest
  end.

(** [torch.split(t, sections, dim)] with a list of section sizes. *)
Definition split (t : Tensor) (sections : list nat) (dim : nat)
  : result (list Tensor) :=
  match shape t !! dim with
  | None => Raise IndexError
  | Some d =>
      if decide (sum_list sections = d)
      then Ok (split_sections t dim 0 sections)
      else Raise RuntimeError
  end.

(** Iterating [t]: its slices along the first dimension; a tensor without
    dimensions cannot be iterated. *)
Definition unbind (t : Tensor) : result (list Tensor) :=
  match shape t with
  | [] => Raise TypeError
  | d :: rest =>
      Ok ((λ entries, {| shape := rest; data := entries |})
            <$> chunks (prod rest) d (data t))
  end.

(** [t[v:, :, :]] on a tensor of at least one dimension. *)
Definition slice_from (t : Tensor) (v : nat) : Tensor :=
  match shape t with
  | [] => t
  | d :: rest =>
      {| shape := (d - v) :: rest; data := drop (v * prod rest) (data t) |}
  end.

(** [torch.concat([a, b], dim=0)]; one-dimensional empty tensors are
    skipped, otherwise all dimensions but the first must agree. *)
Definition concat0 (a b : Tensor) : result Tensor :=
  if decide (shape a = [0]) then Ok b
  else if decide (shape b = [0]) then Ok a
  else
    match shape a, shape b with
    | da :: ra, db :: rb =>
        if decide (ra = rb)
        then Ok {| shape := (da + db) :: ra; data := data a ++ data b |}
        else Raise RuntimeError
    | _, _ => Raise RuntimeError
    end.

End Tensors.

Arguments Tensor elt : clear implicits.

End Torch.

(** ** mcore_mixins.py: the patched methods *)

Module Adapters.

(** Members of [AdapterName] that the mixins look up. *)
Inductive AdapterName :=
| LORA_KQV_ADAPTER
| KEY_INFUSED
| VALUE_INFUSED
| MLP_INFUSED
| PTUNING_ADAPTER
| PRE_ATTN_ADAPTER
| POST_ATTN_ADAPTER.

(** Python's [a // b] on non-negative integers. *)
Definition floordiv (a b : nat) : result nat :=
  if decide (b = 0) then Raise ZeroDivisionError else Ok (a / b).

(** [x is not None] *)
Definition is_not_none {A} (x : option A) : bool :=
  match x with Some _ => true | None => false end.

(** [s[i]] on a shape tuple. *)
Definition index (s : list nat) (i : nat) : result nat :=
  match s !! i with
  | Some d => Ok d
  | None => Raise IndexError
  end.

(** [a, b = items]: unpacking into two targets. *)
Definition unpack2 {A} (items : list A) : result (A * A) :=
  match items with
  | [a; b] => Ok (a, b)
  | _ => Raise ValueError
  end.

End Adapters.

Export Adapters.

Module MCoreSelfAttentionMixin.

Import Torch.

Section Attention.

Context {elt : Type}.

(** [a + b] on tensors and [x.to(q.dtype)], left to the framework. *)
Variable tensor_add : Tensor elt -> Tensor elt -> Tensor elt.
Variable to_dtype_of : Tensor elt -> Tensor elt -> Tensor elt.

(** The projection [self.linear_qkv] with what its call returns: the fused
    class returns the linear output together with the layernorm output (the
    flag [return_layernorm_output] is set when the adapters are registered),
    the other classes return the linear output only. *)
Inductive LinearQKV :=
| TELayerNormColumnParallelLinear (fwd : Tensor elt -> Tensor elt * Tensor elt)
| TEColumnParallelLinear (fwd : Tensor elt -> Tensor elt)
| OtherLinear (fwd : Tensor elt -> Tensor elt).

(** What the method reads of [self].  [is_adapter_available] and
    [get_adapter_module] belong to [nemo.core.adapter_mixins], which is not
    among the sources: the record carries what the two calls return. *)
Record Self := {
  linear_qkv : LinearQKV;
  num_attention_heads_per_partition : nat;
  num_query_groups_per_partition : nat;
  hidden_size_per_attention_head : nat;
  is_adapter_available : bool;
  get_adapter_module : AdapterName -> option (Tensor elt -> Tensor elt);
}.

(** Lines 98-123: view, split along dimension 3, reshape of the query. *)
Definition split_mixed_qkv (self : Self) (mixed_qkv : Tensor elt)
  : result (Tensor elt * Tensor elt * Tensor elt) :=
  let np := num_attention_heads_per_partition self in
  let ng := num_query_groups_per_partition self in
  let hn := hidden_size_per_attention_head self in
  per_group ← floordiv np ng;
  let new_tensor_shape :=
    removelast (shape mixed_qkv) ++ [ng; (per_group + 2) * hn] in
  mixed_qkv ← view mixed_qkv new_tensor_shape;
  parts ← split mixed_qkv [per_group * hn; hn; hn] 3;
  match parts with
  | [query; key; value] =>
      s0 ← size query 0;
      s1 ← size query 1;
      query ← reshape query [Some s0; Some s1; None; Some hn];
      Ok (query, key, value)
  | _ => Raise ValueError
  end.

(** Lines 130-131 and 134-135: an infused adapter applied to a flattened
    key or value, reshaped back and cast to the query's type. *)
Definition apply_infused (adapter : Tensor elt -> Tensor elt)
  (query x : Tensor elt) : result (Tensor elt) :=
  let ls := shape x in
  l0 ← index ls 0;
  l1 ← index ls 1;
  flat ← reshape x [Some l0; Some l1; None];
  out ← reshape (adapter flat) (map Some ls);
  Ok (to_dtype_of query out).

Definition get_query_key_value_tensors (self : Self) (hidden_states : Tensor elt)
  : result (Tensor elt * Tensor elt * Tensor elt) :=
  (* lines 70-84 *)
  '(mixed_qkv, layernorm_output) ←
    match linear_qkv self with
    | TELayerNormColumnParallelLinear fwd =>
        let '(mixed_qkv, layernorm_output) := fwd hidden_states in
        Ok (mixed_qkv, Some layernorm_output)
    | TEColumnParallelLinear fwd => Ok (fwd hidden_states, None)
    | OtherLinear _ => Raise ValueError
    end;
  (* lines 86-96 *)
  mixed_qkv ←
    (if is_adapter_available self then
       match get_adapter_module self LORA_KQV_ADAPTER with
       | Some lora_kqv_adapter =>
           lora_mixed_qkv ←
             match linear_qkv self with
             | TELayerNormColumnParallelLinear _ =>
                 match layernorm_output with
                 | Some ln => Ok (lora_kqv_adapter ln)
                 | None => Raise AttributeError   (* not reached: set above *)
                 end
             | TEColumnParallelLinear _ => Ok (lora_kqv_adapter hidden_states)
             | OtherLinear _ => Raise ValueError
             end;
           Ok (tensor_add mixed_qkv lora_mixed_qkv)
       | None => Ok mixed_qkv
       end
     else Ok mixed_qkv);
  (* lines 98-123 *)
  '(query, key, value) ← split_mixed_qkv self mixed_qkv;
  (* lines 125-135 *)
  '(key, value) ←
    (if is_adapter_available self then
       let key_infused_adapter := get_adapter_module self KEY_INFUSED in
       let value_infused_adapter := get_adapter_module self VALUE_INFUSED in
       key ←
         match key_infused_adapter with
         | Some adapter =>
             _ ← py_assert (is_not_none value_infused_adapter);
             apply_infused adapter query key
         | None => Ok key
         end;
       value ←
         match value_infused_adapter with
         | Some adapter =>
             _ ← py_assert (is_not_none key_infused_adapter);
             apply_infused adapter query value
         | None => Ok value
         end;
       Ok (key, value)
     else Ok (key, value));
  Ok (query, key, value).

(** The split as the specification words it: every query group's row of
    the mixed tensor is its query entries, then its key entries, then its
    value entries. *)
Inductive rows_split (nq nk nv : nat)
  : list elt -> list elt -> list elt -> list elt -> Prop :=
| rows_split_nil : rows_split nq nk nv [] [] [] []
| rows_split_cons q k v mixed qs ks vs :
    length q = nq -> length k = nk -> length v = nv ->
    rows_split nq nk nv mixed qs ks vs ->
    rows_split nq nk nv (q ++ k ++ v ++ mixed) (q ++ qs) (k ++ ks) (v ++ vs).

(** [linear_qkv] is an instance of one of the two recognized classes. *)
Definition recognized (l : LinearQKV) : bool :=
  match l with
  | TELayerNormColumnParallelLinear _ | TEColumnParallelLinear _ => true
  | OtherLinear _ => false
  end.

(** The [mixed_qkv] tensor that [linear_qkv] produces on an input. *)
Definition mixed_qkv_of (l : LinearQKV) (hidden_states : Tensor elt)
  : option (Tensor elt) :=
  match l with
  | TELayerNormColumnParallelLinear fwd => Some (fwd hidden_states).1
  | TEColumnParallelLinear fwd => Some (fwd hidden_states)
  | OtherLinear _ => None
  end.

(** No LoRA or IA3 adapter takes part in the call. *)
Definition no_adapter_fires (self : Self) : Prop :=
  is_adapter_available self = false
  ∨ (get_adapter_module self LORA_KQV_ADAPTER = None
     ∧ get_adapter_module self KEY_INFUSED = None
     ∧ get_adapter_module self VALUE_INFUSED = None).

(** The three parts cut from the rows of a [sq, b, ng, w] view. *)
Definition cut_rows (w rows start len : nat) (l : list elt) : list elt :=
  concat (map (λ blk, take len (drop start blk)) (chunks w rows l)).

(** The tensor [x.reshape(s[0], s[1], -1)] of a four-dimensional [x], and
    a tensor with the shape of [x] over other entries. *)
Definition flattened (x : Tensor elt) : Tensor elt :=
  match shape x with
  | [d0; d1; d2; d3] => {| shape := [d0; d1; d2 * d3]; data := data x |}
  | _ => x
  end.

Definition with_data (x : Tensor elt) (entries : list elt) : Tensor elt :=
  {| shape := shape x; data := entries |}.

(** What the LoRA adapter is applied to: the layernorm output of a fused
    projection, the hidden states otherwise. *)
Definition lora_input_of (l : LinearQKV) (hidden_states : Tensor elt) : Tensor elt :=
  match l with
  | TELayerNormColumnParallelLinear fwd => (fwd hidden_states).2
  | TEColumnParallelLinear _ | OtherLinear _ => hidden_states
  end.

(** The [mixed_qkv] that is split when adapters are available: the
    projection's output plus the LoRA adapter's, if one is registered. *)
Definition with_lora (self : Self) (hidden_states mixed : Tensor elt) : Tensor elt :=
  match get_adapter_module self LORA_KQV_ADAPTER with
  | Some lora =>
      tensor_add mixed (lora (lora_input_of (linear_qkv self) hidden_states))
  | None => mixed
  end.

(** *** The call of [linear_qkv] and its unpacking (lines 70-84) *)

(** What a call of an arbitrary module may return: a tensor, None, or a
    tuple of tensors and Nones. *)
Inductive Returned :=
| RTensor (t : Tensor elt)
| RNone
| RTuple (items : list (option (Tensor elt))).

(** Iterating a returned value, as unpacking does. *)
Definition iterate (v : Returned) : result (list (option (Tensor elt))) :=
  match v with
  | RTuple items => Ok items
  | RTensor t =>
      match unbind t with
      | Ok rows => Ok (Some <$> rows)
      | Raise e => Raise e
      end
  | RNone => Raise TypeError
  end.

(** [self.linear_qkv] as the patched module holds it.  The call of a
    [TELayerNormColumnParallelLinear] returns [((linear, layernorm), bias)]
    when its flag [return_layernorm_output] is set, and [(linear, bias)]
    otherwise; that of a [TEColumnParallelLinear] returns [(linear, bias)];
    a module of another class returns whatever it returns. *)
Inductive PatchedLinearQKV :=
| FusedLinear (return_layernorm_output : bool)
    (fwd : Tensor elt -> Tensor elt * Tensor elt)
| ColumnLinear (fwd : Tensor elt -> Tensor elt)
| UnrecognizedLinear (call : Tensor elt -> Returned).

Definition with_linear_qkv (self : Self) (l : LinearQKV) : Self :=
  {| linear_qkv := l;
     num_attention_heads_per_partition := num_attention_heads_per_partition self;
     num_query_groups_per_partition := num_query_groups_per_partition self;
     hidden_size_per_attention_head := hidden_size_per_attention_head self;
     is_adapter_available := is_adapter_available self;
     get_adapter_module := get_adapter_module self |}.

(** The method on a module whose [linear_qkv] is [l] and whose other
    attributes are those of [self]: line 70 calls the projection and unpacks
    [(linear_qkv_output, _)]; for the fused class line 78 unpacks
    [linear_qkv_output] into [mixed_qkv] and [layernorm_output], which
    iterates the rows of a tensor when no layernorm output was returned; for
    an unrecognized class lines 82-84 raise.  From there on the method is
    [get_query_key_value_tensors] on what the unpacking yielded. *)
Definition get_query_key_value_tensors_unpacking (l : PatchedLinearQKV)
  (self : Self) (hidden_states : Tensor elt)
  : result (Tensor elt * Tensor elt * Tensor elt) :=
  match l with
  | FusedLinear true fwd =>
      get_query_key_value_tensors
        (with_linear_qkv self (TELayerNormColumnParallelLinear fwd)) hidden_states
  | FusedLinear false fwd =>
      rows ← unbind (fwd hidden_states).1;
      '(mixed_qkv, layernorm_output) ← unpack2 rows;
      get_query_key_value_tensors
        (with_linear_qkv self
           (TELayerNormColumnParallelLinear (λ _, (mixed_qkv, layernorm_output))))
        hidden_states
  | ColumnLinear fwd =>
      get_query_key_value_tensors
        (with_linear_qkv self (TEColumnParallelLinear fwd)) hidden_states
  | UnrecognizedLinear call =>
      items ← iterate (call hidden_states);
      _ ← unpack2 items;
      Raise ValueError
  end.

(** [linear_qkv] is an instance of one of the two recognized classes. *)
Definition patched_recognized (l : PatchedLinearQKV) : bool :=
  match l with
  | FusedLinear _ _ | ColumnLinear _ => true
  | UnrecognizedLinear _ => false
  end.

(** A fused projection returns its layernorm output. *)
Definition layernorm_returned (l : PatchedLinearQKV) : bool :=
  match l with
  | FusedLinear flag _ => flag
  | _ => true
  end.

(** The call of an unrecognized projection returns something that can be
    iterated: a tuple, or a tensor of at least one dimension. *)
Definition returns_iterable (l : PatchedLinearQKV) (hidden_states : Tensor elt)
  : bool :=
  match l with
  | UnrecognizedLinear call =>
      match call hidden_states with
      | RTuple _ => true
      | RTensor t => bool_decide (shape t ≠ [])
      | RNone => false
      end
  | _ => true
  end.

End Attention.

Arguments LinearQKV elt : clear implicits.
Arguments Self elt : clear implicits.
Arguments Returned elt : clear implicits.
Arguments PatchedLinearQKV elt : clear implicits.

(** Concrete modules over integer entries. *)
Definition zadd (a b : Tensor Z) : Tensor Z :=
  {| shape := shape a; data := zip_with Z.add (data a) (data b) |}.

Definition zcast (query x : Tensor Z) : Tensor Z := x.

Definition iota (dims : list nat) : Tensor Z :=
  {| shape := dims; data := Z.of_nat <$> seq 1 (prod dims) |}.

Definition no_adapters (name : AdapterName) : option (Tensor Z -> Tensor Z) := None.

(** Four heads in two groups behind a fused projection. *)
Definition example_grouped : Self Z :=
  {| linear_qkv := TELayerNormColumnParallelLinear (λ x, (iota [1; 1; 8], x));
     num_attention_heads_per_partition := 4;
     num_query_groups_per_partition := 2;
     hidden_size_per_attention_head := 1;
     is_adapter_available := false;
     get_adapter_module := no_adapters |}.

(** Three heads in two groups. *)
Definition example_uneven : Self Z :=
  {| linear_qkv := TEColumnParallelLinear (λ x, iota [1; 1; 6]);
     num_attention_heads_per_partition := 3;
     num_query_groups_per_partition := 2;
     hidden_size_per_attention_head := 1;
     is_adapter_available := false;
     get_adapter_module := no_adapters |}.

(** IA3 adapters that double keys and values. *)
Definition doubling (x : Tensor Z) : Tensor Z :=
  {| shape := shape x; data := Z.mul 2 <$> data x |}.

Definition ia3_adapters (name : AdapterName) : option (Tensor Z -> Tensor Z) :=
  match name with
  | KEY_INFUSED | VALUE_INFUSED => Some doubling
  | _ => None
  end.

Definition example_ia3 : Self Z :=
  {| linear_qkv := TEColumnParallelLinear (λ x, iota [1; 1; 8]);
     num_attention_heads_per_partition := 4;
     num_query_groups_per_partition := 2;
     hidden_size_per_attention_head := 1;
     is_adapter_available := true;
     get_adapter_module := ia3_adapters |}.

(** An empty sequence. *)
Definition example_empty : Self Z :=
  {| linear_qkv := TEColumnParallelLinear (λ x, iota [0; 1; 8]);
     num_attention_heads_per_partition := 4;
     num_query_groups_per_partition := 2;
     hidden_size_per_attention_head := 1;
     is_adapter_available := false;
     get_adapter_module := no_adapters |}.

(** No query group, and heads of size zero. *)
Definition example_no_group : Self Z :=
  {| linear_qkv := TEColumnParallelLinear (λ x, iota [1; 1; 0]);
     num_attention_heads_per_partition := 4;
     num_query_groups_per_partition := 0;
     hidden_size_per_attention_head := 1;
     is_adapter_available := false;
     get_adapter_module := no_adapters |}.

Definition example_no_width : Self Z :=
  {| linear_qkv := TEColumnParallelLinear (λ x, iota [1; 1; 0]);
     num_attention_heads_per_partition := 4;
     num_query_groups_per_partition := 2;
     hidden_size_per_attention_head := 0;
     is_adapter_available := false;
     get_adapter_module := no_adapters |}.

(** A fused projection whose flag [return_layernorm_output] was never set:
    its call returns the linear output alone, here for a sequence of three. *)
Definition example_flag_unset : PatchedLinearQKV Z :=
  FusedLinear false (λ x, (iota [3; 1; 8], x)).

Definition example_flag_set : PatchedLinearQKV Z :=
  FusedLinear true (λ x, (iota [1; 1; 8], x)).

(** A LoRA adapter behind a fused projection: the projection returns the
    entries 1..8 and the input as layernorm output; the adapter emits ten
    times the position of each entry. *)
Definition tens (x : Tensor Z) : Tensor Z :=
  {| shape := [1; 1; 8]; data := Z.mul 10 <$> data (iota [1; 1; 8]) |}.

Definition lora_adapters (name : AdapterName) : option (Tensor Z -> Tensor Z) :=
  match name with
  | LORA_KQV_ADAPTER => Some tens
  | _ => None
  end.

Definition example_lora : Self Z :=
  {| linear_qkv := TELayerNormColumnParallelLinear (λ x, (iota [1; 1; 8], x));
     num_attention_heads_per_partition := 4;
     num_query_groups_per_partition := 2;
     hidden_size_per_attention_head := 1;
     is_adapter_available := true;
     get_adapter_module := lora_adapters |}.

(** A key adapter registered without its value adapter. *)
Definition key_only (name : AdapterName) : option (Tensor Z -> Tensor Z) :=
  match name with
  | KEY_INFUSED => Some doubling
  | _ => None
  end.

Definition example_key_only : Self Z :=
  {| linear_qkv := TEColumnParallelLinear (λ x, iota [1; 1; 8]);
     num_attention_heads_per_partition := 4;
     num_query_groups_per_partition := 2;
     hidden_size_per_attention_head := 1;
     is_adapter_available := true;
     get_adapter_module := key_only |}.

(** A LoRA adapter together with a key adapter that lacks its value
    adapter. *)
Definition lora_and_key (name : AdapterName) : option (Tensor Z -> Tensor Z) :=
  match name with
  | LORA_KQV_ADAPTER => Some tens
  | KEY_INFUSED => Some doubling
  | _ => None
  end.

Definition example_lora_key_only : Self Z :=
  {| linear_qkv := TELayerNormColumnParallelLinear (λ x, (iota [1; 1; 8], x));
     num_attention_heads_per_partition := 4;
     num_query_groups_per_partition := 2;
     hidden_size_per_attention_head := 1;
     is_adapter_available := true;
     get_adapter_module := lora_and_key |}.

End MCoreSelfAttentionMixin.

Module MCoreMLPMixin.

Import Torch.

Section MLP.

Context {elt : Type}.

Variable tensor_add : Tensor elt -> Tensor elt -> Tensor elt.
Variable bias_gelu_impl : Tensor elt -> option (Tensor elt) -> Tensor elt.
Variable gelu : Tensor elt -> Tensor elt.

(** [self.activation_func]: [F.gelu] or some other callable. *)
Inductive Activation :=
| F_gelu
| OtherActivation (f : Tensor elt -> Tensor elt).

Definition call_activation (a : Activation) (x : Tensor elt) : Tensor elt :=
  match a with
  | F_gelu => gelu x
  | OtherActivation f => f x
  end.

Definition is_gelu (a : Activation) : bool :=
  match a with F_gelu => true | OtherActivation _ => false end.

(** What the method reads of [self]; the projections return an output and
    an optional bias. *)
Record Self := {
  linear_fc1 : Tensor elt -> Tensor elt * option (Tensor elt);
  linear_fc2 : Tensor elt -> Tensor elt * option (Tensor elt);
  bias_activation_fusion : bool;   (* self.config.bias_activation_fusion *)
  add_bias_linear : bool;          (* self.config.add_bias_linear *)
  activation_func : Activation;
  get_adapter_module : AdapterName -> option (Tensor elt -> Tensor elt);
}.

Definition forward (self : Self) (hidden_states : Tensor elt)
  : result (Tensor elt * option (Tensor elt)) :=
  let '(intermediate_parallel, bias_parallel) := linear_fc1 self hidden_states in
  intermediate_parallel ←
    (if bias_activation_fusion self then
       _ ← py_assert (add_bias_linear self);
       _ ← py_assert (is_gelu (activation_func self));
       Ok (bias_gelu_impl intermediate_parallel bias_parallel)
     else
       let intermediate_parallel :=
         match bias_parallel with
         | Some bias => tensor_add intermediate_parallel bias
         | None => intermediate_parallel
         end in
       Ok (call_activation (activation_func self) intermediate_parallel));
  let infused_adapter := get_adapter_module self MLP_INFUSED in
  let intermediate_parallel :=
    match infused_adapter with
    | Some adapter => adapter intermediate_parallel
    | None => intermediate_parallel
    end in
  let '(output, output_bias) := linear_fc2 self intermediate_parallel in
  Ok (output, output_bias).

(** The module with its adapter registry emptied. *)
Definition without_adapters (self : Self) : Self :=
  {| linear_fc1 := linear_fc1 self;
     linear_fc2 := linear_fc2 self;
     bias_activation_fusion := bias_activation_fusion self;
     add_bias_linear := add_bias_linear self;
     activation_func := activation_func self;
     get_adapter_module := λ _, None |}.

(** The module without adapters whose second projection first applies
    [adapter]. *)
Definition with_adapter_folded (self : Self)
  (adapter : Tensor elt -> Tensor elt) : Self :=
  {| linear_fc1 := linear_fc1 self;
     linear_fc2 := λ x, linear_fc2 self (adapter x);
     bias_activation_fusion := bias_activation_fusion self;
     add_bias_linear := add_bias_linear self;
     activation_func := activation_func self;
     get_adapter_module := λ _, None |}.

End MLP.

Arguments Activation elt : clear implicits.
Arguments Self elt : clear implicits.

(** A concrete MLP over integer entries with an IA3 adapter. *)
Definition scale (c : Z) (x : Tensor Z) : Tensor Z :=
  {| shape := shape x; data := Z.mul c <$> data x |}.

Definition zadd_mlp (a b : Tensor Z) : Tensor Z :=
  {| shape := shape a; data := zip_with Z.add (data a) (data b) |}.

Definition example_mlp : Self Z :=
  {| linear_fc1 := λ x, (scale 3 x, None);
     linear_fc2 := λ x, (scale 5 x, None);
     bias_activation_fusion := false;
     add_bias_linear := false;
     activation_func := OtherActivation (scale 7);
     get_adapter_module :=
       λ name, match name with MLP_INFUSED => Some (scale 2) | _ => None end |}.

End MCoreMLPMixin.

Module MCoreGPTEmbeddingMixin.

Import Torch.

Section Embedding.

Context {elt ids : Type}.

(** The prompt-tuning adapter ([parallel_adapters] is not among the
    sources): its [virtual_tokens] attribute and its call on a batch size. *)
Record PromptEncoderAdapter := {
  virtual_tokens : nat;
  prompt_forward : nat -> Tensor elt;
}.

(** What the method reads of [self]: the base class's [forward] and what
    the two adapter queries return. *)
Record Self := {
  super_forward : ids -> ids -> Tensor elt;   (* LanguageModelEmbedding.forward *)
  is_adapter_available : bool;
  get_adapter_module : AdapterName -> option PromptEncoderAdapter;
}.

Definition forward (self : Self) (input_ids position_ids : ids)
  : result (Tensor elt) :=
  let encoder_input := super_forward self input_ids position_ids in
  if is_adapter_available self then
    match shape encoder_input with
    | [_sq; _bs; _hs] =>
        let ptuning_adapter := get_adapter_module self PTUNING_ADAPTER in
        v ← match ptuning_adapter with
            | Some adapter => Ok (virtual_tokens adapter)
            | None => Raise AttributeError
            end;
        match ptuning_adapter with
        | Some adapter =>
            if decide (v ≤ _sq) then
              let virtual_embeddings := prompt_forward adapter _bs in
              let encoder_input := slice_from encoder_input v in
              concat0 virtual_embeddings encoder_input
            else Ok encoder_input
        | None => Ok encoder_input
        end
    | _ => Raise ValueError
    end
  else Ok encoder_input.

End Embedding.

Arguments PromptEncoderAdapter elt : clear implicits.
Arguments Self elt ids : clear implicits.

(** Concrete embeddings over integer entries. *)
Definition base_embedding (input_ids position_ids : list Z) : Tensor Z :=
  {| shape := [length input_ids; 1; 2];
     data := flat_map (λ i, [i; (i + 1)%Z]) input_ids |}.

Definition example_prompt : PromptEncoderAdapter Z :=
  {| virtual_tokens := 2;
     prompt_forward := λ bs, {| shape := [2; bs; 2]; data := [0; 0; 0; 0]%Z |} |}.

Definition example_tuned : Self Z (list Z) :=
  {| super_forward := base_embedding;
     is_adapter_available := true;
     get_adapter_module :=
       λ name, match name with PTUNING_ADAPTER => Some example_prompt | _ => None end |}.

(** An adapter registered under another name: adapters are available, yet
    every lookup the mixin makes returns None. *)
Definition example_other_name : Self Z (list Z) :=
  {| super_forward := base_embedding;
     is_adapter_available := true;
     get_adapter_module := λ _, None |}.

End MCoreGPTEmbeddingMixin.

Module MCoreTransformerLayerMixin.

Import Torch.

Section Layer.

Context {elt Mask Inference Scalar : Type}.

Variable tensor_add : Tensor elt -> Tensor elt -> Tensor elt.
Variable make_viewless_tensor : Tensor elt -> Tensor elt.

(** What a submodule hands to the bias-dropout-add step: a tensor, an
    output with its bias, or a dictionary. *)
Inductive ModuleOutput :=
| OutTensor (t : Tensor elt)
| OutPair (output : Tensor elt) (bias : option (Tensor elt))
| OutDict (d : gmap string (Tensor elt)).

(** What the method reads of [self].  Self attention and the MLP return an
    output and a bias, as the unpacking at lines 229 and 279 takes them; a
    bias-dropout-add attribute is called with the training and fusion flags
    and returns the function applied to output, residual and dropout rate.
    [bias_dropout_add_exec_handler] only sets the gradient mode. *)
Record Self := {
  input_layernorm : Tensor elt -> Tensor elt;
  self_attention :
    Tensor elt -> Mask -> option Inference -> option (Tensor elt)
    -> Tensor elt * option (Tensor elt);
  self_attn_bda : bool -> bool -> ModuleOutput -> Tensor elt -> Scalar -> Tensor elt;
  pre_cross_attn_layernorm : Tensor elt -> Tensor elt;
  cross_attention :
    Tensor elt -> option Mask -> option (Tensor elt) -> option Inference
    -> ModuleOutput;
  cross_attn_bda : bool -> bool -> ModuleOutput -> Tensor elt -> Scalar -> Tensor elt;
  pre_mlp_layernorm : Tensor elt -> Tensor elt;
  mlp : Tensor elt -> Tensor elt * option (Tensor elt);
  mlp_bda : bool -> bool -> ModuleOutput -> Tensor elt -> Scalar -> Tensor elt;
  training : bool;
  bias_dropout_fusion : bool;      (* self.config.bias_dropout_fusion *)
  hidden_dropout : Scalar;
  is_adapter_available : bool;
  get_adapter_module : AdapterName -> option (Tensor elt -> Tensor elt);
}.

(** Lines 226-233 and 276-281: an adapter call with residual connection on
    the output; the bias is kept. *)
Definition adapt (self : Self) (name : AdapterName)
  (output_with_bias : Tensor elt * option (Tensor elt))
  : Tensor elt * option (Tensor elt) :=
  if is_adapter_available self then
    match get_adapter_module self name with
    | Some adapter =>
        let '(output, bias) := output_with_bias in
        (tensor_add (adapter output) output, bias)
    | None => output_with_bias
    end
  else output_with_bias.

Definition forward (self : Self) (hidden_states : Tensor elt)
  (attention_mask : Mask) (context : option (Tensor elt))
  (context_mask : option Mask) (rotary_pos_emb : option (Tensor elt))
  (inference_params : option Inference)
  : Tensor elt * option (Tensor elt) :=
  let residual := hidden_states in
  let input_layernorm_output := input_layernorm self hidden_states in
  let attention_output_with_bias :=
    self_attention self input_layernorm_output attention_mask
      inference_params rotary_pos_emb in
  let '(attention_output, bias) :=
    adapt self PRE_ATTN_ADAPTER attention_output_with_bias in
  let hidden_states :=
    self_attn_bda self (training self) (bias_dropout_fusion self)
      (OutPair attention_output bias) residual (hidden_dropout self) in
  let residual := hidden_states in
  let pre_cross_attn_layernorm_output :=
    pre_cross_attn_layernorm self hidden_states in
  let attention_output_with_bias :=
    cross_attention self pre_cross_attn_layernorm_output context_mask context
      inference_params in
  let context :=
    match attention_output_with_bias with
    | OutDict d =>
        match d !! "context" with
        | Some c => Some c
        | None => context
        end
    | _ => context
    end in
  let hidden_states :=
    cross_attn_bda self (training self) (bias_dropout_fusion self)
      attention_output_with_bias residual (hidden_dropout self) in
  let residual := hidden_states in
  let pre_mlp_layernorm_output := pre_mlp_layernorm self hidden_states in
  let mlp_output_with_bias := mlp self pre_mlp_layernorm_output in
  let '(mlp_output, bias) := adapt self POST_ATTN_ADAPTER mlp_output_with_bias in
  let hidden_states :=
    mlp_bda self (training self) (bias_dropout_fusion self)
      (OutPair mlp_output bias) residual (hidden_dropout self) in
  let output := make_viewless_tensor hidden_states in
  (output, context).

(** The layer with its adapter registry emptied. *)
Definition without_adapters (self : Self) : Self :=
  {| input_layernorm := input_layernorm self;
     self_attention := self_attention self;
     self_attn_bda := self_attn_bda self;
     pre_cross_attn_layernorm := pre_cross_attn_layernorm self;
     cross_attention := cross_attention self;
     cross_attn_bda := cross_attn_bda self;
     pre_mlp_layernorm := pre_mlp_layernorm self;
     mlp := mlp self;
     mlp_bda := mlp_bda self;
     training := training self;
     bias_dropout_fusion := bias_dropout_fusion self;
     hidden_dropout := hidden_dropout self;
     is_adapter_available := false;
     get_adapter_module := λ _, None |}.

End Layer.

Arguments ModuleOutput elt : clear implicits.
Arguments Self elt Mask Inference Scalar : clear implicits.

(** A concrete layer over integer entries whose adapters emit zeros, as
    freshly initialised adapters do. *)
Definition zeros_like (x : Tensor Z) : Tensor Z :=
  {| shape := shape x; data := (λ _, 0%Z) <$> data x |}.

Definition layer_add (a b : Tensor Z) : Tensor Z :=
  {| shape := shape b; data := zip_with Z.add (data a) (data b) |}.

Definition sum_bda (training fusion : bool) (x : ModuleOutput Z)
  (residual : Tensor Z) (p : unit) : Tensor Z :=
  match x with
  | OutPair output _ => layer_add output residual
  | OutTensor t => residual
  | OutDict _ => residual
  end.

Definition example_layer : Self Z unit unit unit :=
  {| input_layernorm := λ x, x;
     self_attention :=
       λ x _ _ _, ({| shape := shape x; data := Z.mul 2 <$> data x |}, None);
     self_attn_bda := sum_bda;
     pre_cross_attn_layernorm := λ x, x;
     cross_attention := λ x _ _ _, OutTensor x;
     cross_attn_bda := sum_bda;
     pre_mlp_layernorm := λ x, x;
     mlp := λ x, ({| shape := shape x; data := Z.mul 3 <$> data x |}, None);
     mlp_bda := sum_bda;
     training := false;
     bias_dropout_fusion := false;
     hidden_dropout := tt;
     is_adapter_available := true;
     get_adapter_module := λ _, Some zeros_like |}.

End MCoreTransformerLayerMixin.

(** ** griffin_model.py *)

Module GriffinModel.

(** Tensors, floating-point scalars, the transformer configuration, the
    submodules and the tensor operations are the framework's. *)
Class Framework := {
  Tensor : Type;
  Scalar : Type;
  TransformerConfig : Type;
  LanguageModelEmbedding : Type;
  RotaryEmbedding : Type;
  GriffinStack : Type;
  OutputLayer : Type;
  (* constructors of the submodules *)
  new_LanguageModelEmbedding : TransformerConfig -> Z -> Z -> LanguageModelEmbedding;
  new_RotaryEmbedding : TransformerConfig -> Scalar -> Z -> RotaryEmbedding;
  new_GriffinStack : TransformerConfig -> GriffinStack;
  (* attributes and calls of the submodules *)
  word_embeddings_weight : LanguageModelEmbedding -> Tensor;
  embedding_call : LanguageModelEmbedding -> Tensor -> Tensor -> Tensor;
  output_layer_weight : OutputLayer -> Tensor;
  set_decoder_input_tensor : GriffinStack -> option Tensor -> GriffinStack;
  decoder_call : GriffinStack -> Tensor -> option Tensor -> option Tensor -> Tensor;
  get_rotary_seq_len :
    RotaryEmbedding -> GriffinStack -> Tensor -> TransformerConfig -> Z;
  rotary_call : RotaryEmbedding -> Z -> Tensor;
  compute_language_model_loss : Tensor -> Tensor -> Tensor;
  (* tensor operations *)
  (* token_ids.size(1), arange, unsqueeze, expand_as: IndexError on ids of
     fewer than two dimensions *)
  position_ids_of : Tensor -> result Tensor;
  scale_by_sqrt_hidden_size : TransformerConfig -> Tensor -> Tensor;
  tensor_div : Tensor -> Scalar -> Tensor;
  tensor_mul : Tensor -> Scalar -> Tensor;
  tanh : Tensor -> Tensor;
  transpose_0_1 : Tensor -> Tensor;
  contiguous : Tensor -> Tensor;
  permute_1_0_2 : Tensor -> Tensor;
  matmul_transposed : Tensor -> Tensor -> Tensor;
}.

Section Griffin.

Context `{Framework}.

Record Self := {
  config : TransformerConfig;
  vocab_size : Z;
  logits_soft_cap : Scalar;
  position_embedding_type : string;
  pre_process : bool;
  post_process : bool;
  share_embeddings_and_output_weights : bool;
  embedding : option LanguageModelEmbedding;
  rotary_pos_emb : option RotaryEmbedding;
  decoder : GriffinStack;
  output_layer : option OutputLayer;         (* never assigned by this class *)
  input_tensor : option (option Tensor);     (* unset until set_input_tensor *)
}.

Definition __init__ (config : TransformerConfig) (vocab_size : Z)
  (logits_soft_cap : Scalar) (position_embedding_type : string)
  (max_sequence_length : Z) (rotary_percent : Scalar) (rotary_base : Z)
  (pre_process : bool) : Self :=
  {| config := config;
     vocab_size := vocab_size;
     logits_soft_cap := logits_soft_cap;
     position_embedding_type := position_embedding_type;
     pre_process := pre_process;
     post_process := false;
     share_embeddings_and_output_weights := true;
     embedding :=
       if pre_process
       then Some (new_LanguageModelEmbedding config vocab_size max_sequence_length)
       else None;
     rotary_pos_emb :=
       if decide (position_embedding_type = "rope")
       then Some (new_RotaryEmbedding config rotary_percent rotary_base)
       else None;
     decoder := new_GriffinStack config;
     output_layer := None;
     input_tensor := None |}.

(** [getattr] of an attribute that may never have been assigned. *)
Definition getattr {A} (x : option A) : result A :=
  match x with
  | Some a => Ok a
  | None => Raise AttributeError
  end.

Definition shared_embedding_or_output_weight (self : Self) : result (option Tensor) :=
  if pre_process self then
    e ← getattr (embedding self);
    Ok (Some (word_embeddings_weight e))
  else if post_process self then
    o ← getattr (output_layer self);
    Ok (Some (output_layer_weight o))
  else Ok None.

(** [self.layers] is read but never assigned. *)
Definition allocate_inference_cache (self : Self) (batch_size max_seqlen : Z)
  : result (list (nat * Tensor)) :=
  Raise AttributeError.

Definition set_input_tensor (self : Self) (input_tensor : option Tensor) : Self :=
  {| config := config self;
     vocab_size := vocab_size self;
     logits_soft_cap := logits_soft_cap self;
     position_embedding_type := position_embedding_type self;
     pre_process := pre_process self;
     post_process := post_process self;
     share_embeddings_and_output_weights := share_embeddings_and_output_weights self;
     embedding := embedding self;
     rotary_pos_emb := rotary_pos_emb self;
     decoder := decoder self;
     output_layer := output_layer self;
     input_tensor := Some input_tensor |}.

Definition griffin_position_ids (token_ids : option Tensor) : result Tensor :=
  t ← getattr token_ids;
  position_ids_of t.

Definition embedding_forward (self : Self) (input_ids : option Tensor) : result Tensor :=
  position_ids ← griffin_position_ids input_ids;
  ids ← getattr input_ids;
  e ← getattr (embedding self);
  let embeddings := embedding_call e ids position_ids in
  Ok (scale_by_sqrt_hidden_size (config self) embeddings).

Definition _embedding_decode_ (self : Self) (logits : Tensor) (transpose : bool) : Tensor :=
  let logits :=
    tensor_mul (tanh (tensor_div logits (logits_soft_cap self))) (logits_soft_cap self) in
  let logits := if transpose then transpose_0_1 logits else logits in
  contiguous logits.

Definition embedding_decode (self : Self) (x : Tensor) (transpose : bool) : result Tensor :=
  let x := permute_1_0_2 x in
  e ← getattr (embedding self);
  let logits := matmul_transposed x (word_embeddings_weight e) in
  Ok (_embedding_decode_ self logits transpose).

(** [self.decoder.input_tensor = None] *)
Definition clear_decoder_input (self : Self) : Self :=
  {| config := config self;
     vocab_size := vocab_size self;
     logits_soft_cap := logits_soft_cap self;
     position_embedding_type := position_embedding_type self;
     pre_process := pre_process self;
     post_process := post_process self;
     share_embeddings_and_output_weights := share_embeddings_and_output_weights self;
     embedding := embedding self;
     rotary_pos_emb := rotary_pos_emb self;
     decoder := set_decoder_input_tensor (decoder self) None;
     output_layer := output_layer self;
     input_tensor := input_tensor self |}.

(** [forward] returns the state it leaves [self] in and its result. *)
Definition forward (self : Self) (input_ids position_ids attention_mask labels : option Tensor)
  : Self * result Tensor :=
  match
    (input_ids ← (match input_ids with
                  | None => getattr (input_tensor self)
                  | Some t => Ok (Some t)
                  end);
     embedding_forward self input_ids)
  with
  | Raise e => (self, Raise e)
  | Ok hidden_states =>
      let self := clear_decoder_input self in
      (self,
       rotary_pos_emb ←
         (if decide (position_embedding_type self = "rope") then
            rope ← getattr (rotary_pos_emb self);
            let rotary_seq_len :=
              get_rotary_seq_len rope (decoder self) hidden_states (config self) in
            Ok (Some (rotary_call rope rotary_seq_len))
          else Ok None);
       let hidden_states :=
         decoder_call (decoder self) hidden_states attention_mask rotary_pos_emb in
       logits ← embedding_decode self hidden_states (is_not_none labels);
       match labels with
       | None => Ok logits
       | Some labels => Ok (compute_language_model_loss labels logits)
       end)
  end.

(** A call of one of the class's methods, and the state it leaves. *)
Inductive Call :=
| call_shared_embedding_or_output_weight
| call_allocate_inference_cache (batch_size max_seqlen : Z)
| call_set_input_tensor (input_tensor : option Tensor)
| call_griffin_position_ids (token_ids : option Tensor)
| call_embedding_forward (input_ids : option Tensor)
| call_embedding_decode_ (logits : Tensor) (transpose : bool)
| call_embedding_decode (x : Tensor) (transpose : bool)
| call_forward (input_ids position_ids attention_mask labels : option Tensor).

Definition run (self : Self) (c : Call) : Self :=
  match c with
  | call_set_input_tensor t => set_input_tensor self t
  | call_forward input_ids position_ids attention_mask labels =>
      fst (forward self input_ids position_ids attention_mask labels)
  | _ => self
  end.

Definition run_all (self : Self) (calls : list Call) : Self :=
  foldl run self calls.

(** What the constructor fixes and no method touches. *)
Definition flags_fixed (p : bool) (e : LanguageModelEmbedding) (self : Self) : Prop :=
  pre_process self = p
  ∧ post_process self = false
  ∧ share_embeddings_and_output_weights self = true
  ∧ embedding self = (if p then Some e else None)
  ∧ output_layer self = None.

(** A call of [set_input_tensor]. *)
Definition is_set_input_tensor (c : Call) : bool :=
  match c with
  | call_set_input_tensor _ => true
  | _ => false
  end.

End Griffin.

(** A small framework over integer lists: the embedding adds its weight's
    first entry to every id, the decoder and the decoding steps are entrywise
    maps. *)
Definition example_framework : Framework :=
  {| Tensor := list Z;
     Scalar := Z;
     TransformerConfig := unit;
     LanguageModelEmbedding := list Z;
     RotaryEmbedding := unit;
     GriffinStack := option (list Z);
     OutputLayer := unit;
     new_LanguageModelEmbedding := λ _ vocab _, [vocab];
     new_RotaryEmbedding := λ _ _ _, tt;
     new_GriffinStack := λ _, None;
     word_embeddings_weight := λ e, e;
     embedding_call := λ e ids _, (λ i, i + default 0 (head e))%Z <$> ids;
     output_layer_weight := λ _, [];
     set_decoder_input_tensor := λ _ t, t;
     decoder_call := λ _ x _ _, x;
     get_rotary_seq_len := λ _ _ x _, Z.of_nat (length x);
     rotary_call := λ _ _, [];
     compute_language_model_loss := λ labels logits, zip_with Z.sub logits labels;
     position_ids_of := λ t, Ok (Z.of_nat <$> seq 0 (length t));
     scale_by_sqrt_hidden_size := λ _ x, x;
     tensor_div := λ x c, (λ i, i / c)%Z <$> x;
     tensor_mul := λ x c, (λ i, i * c)%Z <$> x;
     tanh := λ x, x;
     transpose_0_1 := λ x, x;
     contiguous := λ x, x;
     permute_1_0_2 := λ x, x;
     matmul_transposed := λ x w, x |}.

(** A model with rope position embedding and pre-processing, one forward
    pass and one query of the shared weight. *)
Definition example_model : @Self example_framework :=
  @__init__ example_framework tt 256000%Z 30%Z "rope" 1024%Z 1%Z 10000%Z true.

Definition example_calls : list (@Call example_framework) :=
  [@call_forward example_framework (Some [1; 2]%Z) None None None;
   @call_shared_embedding_or_output_weight example_framework].

End GriffinModel.

(** * Properties *)

(** ** Placeholder tokens *)

Module MultimodalTokensFacts.

Import MultimodalTokens.

(** C6: [ImageToken()] and [VideoToken()] built with no arguments carry the
    defaults "<image>", -200 (= IMAGE_TOKEN_INDEX), "image", False, None and
    "<video>", -300 (= VIDEO_TOKEN_INDEX), "video", False, None. *)
Theorem token_defaults (Callable : Type) :
  let image := @ImageToken Callable None None None None None in
  let video := @VideoToken Callable None None None None None in
  (token_str image = "<image>"%string
   ∧ token_index image = (-200)%Z
   ∧ token_index image = IMAGE_TOKEN_INDEX
   ∧ media_type image = "image"%string
   ∧ use_start_end image = false
   ∧ encoder_fn image = None)
  ∧ (token_str video = "<video>"%string
     ∧ token_index video = (-300)%Z
     ∧ token_index video = VIDEO_TOKEN_INDEX
     ∧ media_type video = "video"%string
     ∧ use_start_end video = false
     ∧ encoder_fn video = None).
Proof. repeat split. Qed.

End MultimodalTokensFacts.

(** ** Class swapping *)

Module ClassSwapFacts.

Import ClassSwap.

Section Facts.

Variable _target_ : AdapterConfig -> string.

Lemma assign_class_lookup obj c h o :
  h !! obj = Some o ->
  assign_class obj c h = (<[obj := set_class c o]> h, Ok tt).
Proof. intros H. unfold assign_class. by rewrite H. Qed.

Lemma set_accepted_lookup self types h o :
  h !! self = Some o ->
  set_accepted_adapter_types self types h
  = (<[self := set_accepted (list_to_set types) o]> h, Ok tt).
Proof. intros H. unfold set_accepted_adapter_types. by rewrite H. Qed.

(** Writing an attribute of a submodule keeps every class pointer and
    registration. *)
Lemma assign_sub_attr_keeps self sub a v h l o :
  h !! l = Some o ->
  ∃ o', (assign_sub_attr self sub a v h).1 !! l = Some o'
        ∧ ob_class o' = ob_class o
        ∧ accepted_adapter_types o' = accepted_adapter_types o.
Proof.
  intros Hl. unfold assign_sub_attr.
  destruct (h !! self) as [os|] eqn:Hs; [|by eauto].
  destruct (ob_dict os !! sub) as [[| | | |l']|]; try by eauto.
  destruct (h !! l') as [ol|] eqn:Hl'; [|by eauto].
  simpl. destruct (decide (l' = l)) as [->|Hne].
  - rewrite lookup_insert_eq. rewrite Hl in Hl'. inversion Hl'; subst. eauto.
  - rewrite lookup_insert_ne by done. eauto.
Qed.

(** C2: after [swap_mcore_mixin(module, M)] with [M] one of the four
    concrete mixins, the module is of class [M] and accepts exactly the
    adapter types of [M]'s fine-tuning method: LoRA and IA3 for self
    attention, IA3 for the MLP, prompt tuning for the embedding and the
    parallel linear adapter for the transformer layer. *)
Theorem swap_registers_exactly (h : gmap loc PyObject) (module : loc)
  (o : PyObject) (M : PyClass) :
  h !! module = Some o ->
  is_concrete_mixin M = true ->
  ∃ o', (swap_mcore_mixin _target_ module M h).1 !! module = Some o'
        ∧ ob_class o' = M
        ∧ accepted_adapter_types o' = peft_adapter_types _target_ M
        ∧ (M = MCoreSelfAttentionMixin ->
           accepted_adapter_types o'
           = {[ _target_ LoraKQVAdapterConfig; _target_ InfusedAdapterConfig ]})
        ∧ (M = MCoreMLPMixin ->
           accepted_adapter_types o' = {[ _target_ MLPInfusedAdapterConfig ]})
        ∧ (M = MCoreGPTEmbeddingMixin ->
           accepted_adapter_types o' = {[ _target_ PromptEncoderAdapterConfig ]})
        ∧ (M = MCoreTransformerLayerMixin ->
           accepted_adapter_types o' = {[ _target_ ParallelLinearAdapterConfig ]}).
Proof.
  intros Hm HM.
  assert (∃ o', (swap_mcore_mixin _target_ module M h).1 !! module = Some o'
                ∧ ob_class o' = M
                ∧ accepted_adapter_types o' = peft_adapter_types _target_ M)
    as (o' & Hl & Hc & Ha).
  { unfold swap_mcore_mixin, seq. rewrite (assign_class_lookup _ _ _ _ Hm).
    unfold mcore_register_adapters. rewrite lookup_insert_eq.
    destruct M; try discriminate HM; simpl.
    - unfold seq.
      erewrite set_accepted_lookup by apply lookup_insert_eq.
      rewrite insert_insert_eq.
      match goal with
      | |- context [assign_sub_attr ?s ?b ?a ?v ?h'] =>
          destruct (assign_sub_attr_keeps s b a v h' module _
                      (lookup_insert_eq _ _ _)) as (o' & Ho' & Hc & Ha)
      end.
      exists o'. split; [|split].
      + destruct (assign_sub_attr _ _ _ _ _) as [h2 [[]|e]]; exact Ho'.
      + by rewrite Hc.
      + rewrite Ha. simpl. by rewrite union_empty_r_L.
    - erewrite set_accepted_lookup by apply lookup_insert_eq.
      simpl. rewrite lookup_insert_eq. eexists. split; [done|].
      split; [done|]. simpl. by rewrite union_empty_r_L.
    - erewrite set_accepted_lookup by apply lookup_insert_eq.
      simpl. rewrite lookup_insert_eq. eexists. split; [done|].
      split; [done|]. simpl. by rewrite union_empty_r_L.
    - erewrite set_accepted_lookup by apply lookup_insert_eq.
      simpl. rewrite lookup_insert_eq. eexists. split; [done|].
      split; [done|]. simpl. by rewrite union_empty_r_L. }
  exists o'. repeat split; try done; intros ->; exact Ha.
Qed.

(** The store a swap leaves, case by case on the mixin. *)
Lemma swap_store (h : gmap loc PyObject) (module : loc) (o : PyObject) (M : PyClass) :
  h !! module = Some o ->
  let h' := (swap_mcore_mixin _target_ module M h).1 in
  (M ≠ MCoreSelfAttentionMixin ->
   ∃ s, h' = <[module := set_accepted s (set_class M o)]> h)
  ∧ (M = MCoreSelfAttentionMixin ->
     ∃ s,
       let h1 := <[module := set_accepted s (set_class M o)]> h in
       match ob_dict o !! "linear_qkv" with
       | Some (VRef lq) =>
           match h1 !! lq with
           | Some ol =>
               h' = <[lq := set_attr "return_layernorm_output" (VBool true) ol]> h1
           | None => h' = h1
           end
       | _ => h' = h1
       end).
Proof.
  intros Hm h'. subst h'.
  unfold swap_mcore_mixin, seq. rewrite (assign_class_lookup _ _ _ _ Hm).
  unfold mcore_register_adapters. rewrite lookup_insert_eq.
  assert (Hid : ∀ c, <[module := set_class c o]> h
                     = <[module := set_accepted (accepted_adapter_types o) (set_class c o)]> h)
    by (intros c; f_equal).
  split.
  - intros HM.
    destruct M; try done; simpl; unfold raise; simpl;
      try (eexists; apply Hid);
      erewrite set_accepted_lookup by apply lookup_insert_eq;
      simpl; rewrite insert_insert_eq; by eexists.
  - intros ->. simpl. unfold seq.
    erewrite set_accepted_lookup by apply lookup_insert_eq.
    rewrite insert_insert_eq. eexists. simpl.
    unfold assign_sub_attr. rewrite lookup_insert_eq. simpl.
    destruct (ob_dict o !! "linear_qkv") as [[| | | |lq]|]; try done.
    by destruct (_ !! lq).
Qed.

(** Footprint of the two writes a swap can make. *)
Lemma registration_frame (h : gmap loc PyObject) module o s M :
  h !! module = Some o ->
  let h1 := <[module := set_accepted s (set_class M o)]> h in
  dom h1 = dom h
  ∧ ∀ l x, h !! l = Some x ->
      ∃ x', h1 !! l = Some x'
            ∧ ob_dict x' = ob_dict x
            ∧ (l ≠ module -> x' = x).
Proof.
  intros Hm h1. split; [apply dom_insert_lookup_L; eauto|].
  intros l x Hl. unfold h1. destruct (decide (l = module)) as [->|Hne].
  - rewrite lookup_insert_eq. eexists; split; [done|].
    rewrite Hl in Hm. inversion Hm; subst x. by split.
  - rewrite lookup_insert_ne by done. eauto.
Qed.

Lemma flag_frame (h : gmap loc PyObject) lq ol a v :
  h !! lq = Some ol ->
  let h2 := <[lq := set_attr a v ol]> h in
  dom h2 = dom h
  ∧ ∀ l x, h !! l = Some x ->
      ∃ x', h2 !! l = Some x'
            ∧ ob_class x' = ob_class x
            ∧ accepted_adapter_types x' = accepted_adapter_types x
            ∧ (∀ a', ¬ (l = lq ∧ a' = a) -> ob_dict x' !! a' = ob_dict x !! a')
            ∧ (l = lq -> ob_dict x' !! a = Some v).
Proof.
  intros Hq h2. split; [apply dom_insert_lookup_L; eauto|].
  intros l x Hl. unfold h2. destruct (decide (l = lq)) as [->|Hne].
  - rewrite lookup_insert_eq. eexists; split; [done|].
    rewrite Hl in Hq. inversion Hq; subst x. simpl.
    repeat split; [|intros _; apply lookup_insert_eq].
    intros a' Ha'. apply lookup_insert_ne. intros <-. by apply Ha'.
  - rewrite lookup_insert_ne by done. eexists; split; [done|].
    repeat split; done.
Qed.

(** C3, as amended: the swap works in place.  No object is created or
    dropped; only the module's class pointer and registration change, and,
    for the self-attention mixin, the attribute [return_layernorm_output]
    of the object its [linear_qkv] refers to, which becomes [True]; every
    other attribute of every object is as before. *)
Theorem swap_footprint (h : gmap loc PyObject) (module : loc)
  (o : PyObject) (M : PyClass) :
  h !! module = Some o ->
  let h' := (swap_mcore_mixin _target_ module M h).1 in
  dom h' = dom h
  ∧ ∀ l x, h !! l = Some x ->
      ∃ x', h' !! l = Some x'
            ∧ (l ≠ module ->
               ob_class x' = ob_class x
               ∧ accepted_adapter_types x' = accepted_adapter_types x)
            ∧ (∀ a, ¬ (M = MCoreSelfAttentionMixin
                       ∧ ob_dict o !! "linear_qkv" = Some (VRef l)
                       ∧ a = "return_layernorm_output") ->
                    ob_dict x' !! a = ob_dict x !! a)
            ∧ (M = MCoreSelfAttentionMixin ->
               ob_dict o !! "linear_qkv" = Some (VRef l) ->
               ob_dict x' !! "return_layernorm_output" = Some (VBool true)).
Proof.
  intros Hm h'.
  destruct (swap_store h module o M Hm) as [Hother Hattn]. fold h' in Hother, Hattn.
  (* the store after the class pointer and the registration are written *)
  assert (Hreg : ∀ s,
    h' = <[module := set_accepted s (set_class M o)]> h ->
    (M = MCoreSelfAttentionMixin -> ∀ lq, ob_dict o !! "linear_qkv" ≠ Some (VRef lq)) ->
    dom h' = dom h
    ∧ ∀ l x, h !! l = Some x ->
        ∃ x', h' !! l = Some x'
              ∧ (l ≠ module ->
                 ob_class x' = ob_class x
                 ∧ accepted_adapter_types x' = accepted_adapter_types x)
              ∧ (∀ a, ¬ (M = MCoreSelfAttentionMixin
                         ∧ ob_dict o !! "linear_qkv" = Some (VRef l)
                         ∧ a = "return_layernorm_output") ->
                      ob_dict x' !! a = ob_dict x !! a)
              ∧ (M = MCoreSelfAttentionMixin ->
                 ob_dict o !! "linear_qkv" = Some (VRef l) ->
                 ob_dict x' !! "return_layernorm_output" = Some (VBool true))).
  { intros s -> Hnoq.
    destruct (registration_frame h module o s M Hm) as [Hdom Hobj].
    split; [exact Hdom|]. intros l x Hl.
    destruct (Hobj l x Hl) as (x' & Hl' & Hd & Hsame).
    exists x'. split; [exact Hl'|]. split; [|split].
    - intros Hne. by rewrite (Hsame Hne).
    - intros a _. by rewrite Hd.
    - intros HM Hq. by destruct (Hnoq HM l). }
  destruct (decide (M = MCoreSelfAttentionMixin)) as [HM|HM];
    [|destruct (Hother HM) as [s Hs]; by apply (Hreg s)].
  destruct (Hattn HM) as [s Hs]. clear Hother Hattn. simpl in Hs.
  destruct (ob_dict o !! "linear_qkv") as [v|] eqn:Hq;
    [|by apply (Hreg s)].
  destruct v as [| | | |lq]; try by apply (Hreg s).
  destruct (registration_frame h module o s M Hm) as [Hdom1 Hobj1].
  destruct (<[module := set_accepted s (set_class M o)]> h !! lq)
    as [ol|] eqn:Hol.
  2:{ destruct (h !! lq) as [x|] eqn:Hx.
      - destruct (Hobj1 lq x Hx) as (x' & Hx' & _). congruence.
      - split; [by rewrite Hs|]. intros l x Hl.
        destruct (Hobj1 l x Hl) as (x' & Hl' & Hd & Hsame).
        exists x'. rewrite Hs. split; [exact Hl'|]. split; [|split].
        + intros Hne. by rewrite (Hsame Hne).
        + intros a _. by rewrite Hd.
        + intros _ [= ->]. congruence. }
  destruct (flag_frame _ lq ol "return_layernorm_output" (VBool true) Hol)
    as [Hdom2 Hobj2].
  rewrite Hs. split; [by rewrite Hdom2|].
  intros l x Hl.
  destruct (Hobj1 l x Hl) as (x1 & Hl1 & Hd1 & Hsame1).
  destruct (Hobj2 l x1 Hl1) as (x2 & Hl2 & Hc2 & Ha2 & Hd2 & Hflag2).
  exists x2. split; [exact Hl2|]. split; [|split].
  - intros Hne. rewrite Hc2, Ha2. by rewrite (Hsame1 Hne).
  - intros a Ha. rewrite <- Hd1. apply Hd2. intros [-> ->]. by apply Ha.
  - intros _ [= ->]. by apply Hflag2.
Qed.

End Facts.

(** The registration of the example self-attention module. *)
Lemma swap_registers_exactly_witness :
  example_store !! 1 = Some example_attention
  ∧ is_concrete_mixin MCoreSelfAttentionMixin = true
  ∧ ∃ o', (swap_mcore_mixin example_target 1 MCoreSelfAttentionMixin
             example_store).1 !! 1 = Some o'
          ∧ ob_class o' = MCoreSelfAttentionMixin
          ∧ accepted_adapter_types o'
            = {[ "parallel_adapters.LoraKQVAdapter";
                 "parallel_adapters.InfusedAdapter" ]}.
Proof.
  split; [reflexivity|]. split; [reflexivity|].
  destruct (swap_registers_exactly example_target example_store 1
              example_attention MCoreSelfAttentionMixin)
    as (o' & Hl & Hc & _ & Ha & _); [reflexivity | reflexivity |].
  exists o'. split; [exact Hl|]. split; [exact Hc|]. exact (Ha eq_refl).
Defined.

(** C3, as stated, fails: swapping a self-attention module to
    [MCoreSelfAttentionMixin] also flips [return_layernorm_output] on its
    [linear_qkv] submodule. *)
Lemma swap_sets_linear_qkv_flag :
  let h' := (swap_mcore_mixin example_target 1 MCoreSelfAttentionMixin
               example_store).1 in
  ob_dict example_attention !! "linear_qkv" = Some (VRef 2)
  ∧ (example_store !! 2 ≫= λ o, ob_dict o !! "return_layernorm_output")
    = Some (VBool false)
  ∧ (h' !! 2 ≫= λ o, ob_dict o !! "return_layernorm_output")
    = Some (VBool true)
  ∧ ¬ only_class_and_registration_change 1 example_store h'.
Proof.
  intros h'.
  assert (H2 : (h' !! 2 ≫= λ o, ob_dict o !! "return_layernorm_output")
               = Some (VBool true)) by (vm_compute; reflexivity).
  split; [reflexivity|]. split; [reflexivity|]. split; [exact H2|].
  intros [_ H].
  destruct (H 2 example_linear_qkv eq_refl) as (o' & Hl & Hd & _).
  rewrite Hl in H2. simpl in H2. rewrite Hd in H2. vm_compute in H2.
  discriminate H2.
Qed.

(** The example's weight object is untouched by the swap. *)
Lemma swap_footprint_witness :
  example_store !! 1 = Some example_attention
  ∧ let h' := (swap_mcore_mixin example_target 1 MCoreSelfAttentionMixin
                 example_store).1 in
    dom h' = dom example_store
    ∧ ∃ x', h' !! 3 = Some x'
            ∧ ob_class x' = ob_class example_weight
            ∧ ob_dict x' !! "data" = ob_dict example_weight !! "data".
Proof.
  split; [reflexivity|].
  destruct (swap_footprint example_target example_store 1 example_attention
              MCoreSelfAttentionMixin eq_refl) as [Hdom Hobj].
  split; [exact Hdom|].
  destruct (Hobj 3 example_weight eq_refl) as (x' & Hl & Hc & Hd & _).
  exists x'. split; [exact Hl|]. split.
  - apply Hc. discriminate.
  - apply Hd. intros (_ & Hq & _). discriminate Hq.
Defined.

End ClassSwapFacts.

(** ** Griffin model *)

Module GriffinModelFacts.

Import GriffinModel.

Section Facts.

Context `{Framework}.

Lemma init_flags_fixed config vocab_size cap pos_type max_len rot_percent rot_base p :
  flags_fixed p (new_LanguageModelEmbedding config vocab_size max_len)
    (__init__ config vocab_size cap pos_type max_len rot_percent rot_base p).
Proof. by repeat split. Qed.

Lemma forward_state self input_ids position_ids attention_mask labels :
  (forward self input_ids position_ids attention_mask labels).1 = self
  ∨ (forward self input_ids position_ids attention_mask labels).1
    = clear_decoder_input self.
Proof.
  unfold forward.
  destruct (_ ≫= _) as [hidden|e]; [right|left]; reflexivity.
Qed.

Lemma run_flags_fixed p e self c :
  flags_fixed p e self -> flags_fixed p e (run self c).
Proof.
  intros Hinv. destruct c; simpl; try exact Hinv.
  destruct (forward_state self input_ids position_ids attention_mask labels)
    as [-> | ->]; exact Hinv.
Qed.

Lemma run_all_flags_fixed p e calls : ∀ self,
  flags_fixed p e self -> flags_fixed p e (run_all self calls).
Proof.
  unfold run_all. induction calls as [|c calls IH]; intros self Hinv; simpl.
  - exact Hinv.
  - apply IH, run_flags_fixed, Hinv.
Qed.

(** C8: whatever the constructor arguments and whatever methods are called
    afterwards, [post_process] is False and
    [share_embeddings_and_output_weights] is True; so
    [shared_embedding_or_output_weight()] returns the word-embedding weight
    when [pre_process] is True and None when it is False, and never reads
    [output_layer]. *)
Theorem griffin_flags_invariant config vocab_size cap pos_type max_len
  rot_percent rot_base (p : bool) (calls : list Call) :
  let self :=
    run_all (__init__ config vocab_size cap pos_type max_len rot_percent rot_base p)
      calls in
  post_process self = false
  ∧ share_embeddings_and_output_weights self = true
  ∧ pre_process self = p
  ∧ shared_embedding_or_output_weight self
    = Ok (if p
          then Some (word_embeddings_weight
                       (new_LanguageModelEmbedding config vocab_size max_len))
          else None).
Proof.
  intros self.
  destruct (run_all_flags_fixed p _ calls _
              (init_flags_fixed config vocab_size cap pos_type max_len
                 rot_percent rot_base p))
    as (Hpre & Hpost & Hshare & Hemb & _).
  fold self in Hpre, Hpost, Hshare, Hemb.
  repeat split; try done.
  unfold shared_embedding_or_output_weight.
  rewrite Hpre, Hpost, Hemb. by destruct p.
Qed.

End Facts.

End GriffinModelFacts.

(** ** Tensor operations *)

Module TorchFacts.

Import Torch.

Section Facts.

Context {elt : Type}.

Implicit Types (t : Tensor elt) (l : list elt).

Lemma chunks_length n k : ∀ l, length (chunks n k l) = k.
Proof. induction k as [|k IH]; intros l; simpl; [done|]. by rewrite IH. Qed.

(** Chunking a row-major buffer loses nothing. *)
Lemma concat_chunks n k : ∀ l, length l = k * n -> concat (chunks n k l) = l.
Proof.
  induction k as [|k IH]; intros l Hlen; simpl in *.
  - by destruct l.
  - rewrite IH by (rewrite length_drop; lia). apply take_drop.
Qed.

(** Along the last of four dimensions a narrow cuts every row. *)
Lemma narrow_last t d0 d1 d2 d3 start len :
  shape t = [d0; d1; d2; d3] ->
  narrow t 3 start len
  = {| shape := [d0; d1; d2; len];
       data := concat (map (λ blk, take len (drop start blk))
                           (chunks d3 (d0 * (d1 * d2)) (data t))) |}.
Proof.
  intros Hs. unfold narrow. rewrite Hs. simpl.
  rewrite !Nat.mul_1_r. by f_equal.
Qed.

Lemma reshape_infer t d0 d1 d3 :
  0 < d0 * d1 * d3 -> numel t mod (d0 * d1 * d3) = 0 ->
  reshape t [Some d0; Some d1; None; Some d3]
  = Ok {| shape := [d0; d1; numel t / (d0 * d1 * d3); d3]; data := data t |}.
Proof.
  intros Hpos Hmod. unfold reshape, infer_size. simpl.
  replace (d0 * (d1 * (d3 * 1))) with (d0 * d1 * d3) by lia.
  destruct (decide (d0 * d1 * d3 = 0)); [lia|].
  destruct (decide (numel t mod (d0 * d1 * d3) = 0)); [done|contradiction].
Qed.

End Facts.

End TorchFacts.

(** ** Self-attention mixin *)

Module MCoreSelfAttentionMixinFacts.

Import Torch TorchFacts MCoreSelfAttentionMixin.

Section Facts.

Context {elt : Type}.
Variable tensor_add : Tensor elt -> Tensor elt -> Tensor elt.
Variable to_dtype_of : Tensor elt -> Tensor elt -> Tensor elt.

Local Abbreviation qkv := (get_query_key_value_tensors tensor_add to_dtype_of).

Lemma cut_rows_split nq nk nv rows : ∀ l : list elt,
  length l = rows * (nq + nk + nv) ->
  rows_split nq nk nv l
    (cut_rows (nq + nk + nv) rows 0 nq l)
    (cut_rows (nq + nk + nv) rows nq nk l)
    (cut_rows (nq + nk + nv) rows (nq + nk) nv l).
Proof.
  unfold cut_rows.
  induction rows as [|rows IH]; intros l Hlen; simpl.
  - destruct l; [constructor | discriminate].
  - set (w := nq + nk + nv) in *.
    set (blk := take w l).
    assert (Hblk : length blk = w) by (unfold blk; rewrite length_take; lia).
    assert (Hl : l = take nq (drop 0 blk) ++ take nk (drop nq blk)
                     ++ take nv (drop (nq + nk) blk) ++ drop w l).
    { rewrite <- (take_drop w l) at 1. fold blk. rewrite !app_assoc. f_equal.
      rewrite drop_0.
      rewrite <- (take_drop nq blk) at 1. rewrite <- app_assoc. f_equal.
      rewrite <- (take_drop nk (drop nq blk)) at 1. f_equal.
      rewrite drop_drop. rewrite take_ge; [done|].
      rewrite length_drop. lia. }
    rewrite Hl at 1.
    constructor.
    + rewrite length_take, drop_0. lia.
    + rewrite length_take, length_drop. lia.
    + rewrite length_take, length_drop. lia.
    + apply IH. rewrite length_drop. lia.
Qed.

Lemma cut_rows_length w rows start len : ∀ l : list elt,
  length l = rows * w -> start + len ≤ w ->
  length (cut_rows w rows start len l) = rows * len.
Proof.
  unfold cut_rows.
  induction rows as [|rows IH]; intros l Hlen Hle; simpl; [done|].
  rewrite length_app, IH by (rewrite ?length_drop; lia).
  rewrite length_take, length_drop, length_take. lia.
Qed.

(** Lines 98-123 on a well-shaped input. *)
Lemma split_mixed_qkv_ok (self : Self elt) (mixed : Tensor elt) (sq b : nat) :
  let np := num_attention_heads_per_partition self in
  let ng := num_query_groups_per_partition self in
  let hn := hidden_size_per_attention_head self in
  let w := (np / ng + 2) * hn in
  0 < sq -> 0 < b -> 0 < ng -> 0 < hn ->
  shape mixed = [sq; b; ng * (np / ng + 2) * hn] ->
  split_mixed_qkv self mixed
  = Ok ({| shape := [sq; b; ng * (np / ng); hn];
           data := cut_rows w (sq * (b * ng)) 0 (np / ng * hn) (data mixed) |},
        {| shape := [sq; b; ng; hn];
           data := cut_rows w (sq * (b * ng)) (np / ng * hn) hn (data mixed) |},
        {| shape := [sq; b; ng; hn];
           data := cut_rows w (sq * (b * ng)) (np / ng * hn + hn) hn (data mixed) |}).
Proof.
  intros np ng hn w Hsq Hb Hng Hhn Hshape.
  unfold split_mixed_qkv. fold np ng hn.
  unfold floordiv. destruct (decide (ng = 0)); [lia|]. simpl.
  rewrite Hshape. simpl. fold w.
  unfold view, numel. rewrite Hshape. simpl.
  destruct (decide (sq * (b * (ng * (w * 1))) = sq * (b * (ng * (np / ng + 2) * hn * 1))))
    as [_|Hne]; [|exfalso; apply Hne; unfold w; lia].
  simpl. unfold split. simpl.
  destruct (decide (np / ng * hn + (hn + (hn + 0)) = w))
    as [_|Hne]; [|exfalso; apply Hne; unfold w; lia].
  simpl.
  rewrite !(narrow_last _ sq b ng w) by done.
  unfold size. simpl.
  rewrite reshape_infer.
  - unfold numel. simpl. unfold cut_rows.
    replace (sq * (b * (ng * (np / ng * hn * 1))) / (sq * b * hn))
      with (ng * (np / ng)).
    + reflexivity.
    + replace (sq * (b * (ng * (np / ng * hn * 1))))
        with (ng * (np / ng) * (sq * b * hn)) by lia.
      rewrite Nat.div_mul; [done|]. nia.
  - nia.
  - unfold numel. simpl.
    replace (sq * (b * (ng * (np / ng * hn * 1))))
      with (ng * (np / ng) * (sq * b * hn)) by lia.
    apply Nat.Div0.mod_mul.
Qed.

(** With no adapter taking part, the method is the projection followed by
    the split. *)
Lemma qkv_without_adapters (self : Self elt) (hidden_states mixed : Tensor elt) :
  no_adapter_fires self ->
  mixed_qkv_of (linear_qkv self) hidden_states = Some mixed ->
  qkv self hidden_states = split_mixed_qkv self mixed.
Proof.
  intros Hno Hmixed. unfold get_query_key_value_tensors.
  assert (Hlora :
    (if is_adapter_available self
     then match get_adapter_module self LORA_KQV_ADAPTER with
          | Some _ => true | None => false end
     else false) = false).
  { destruct Hno as [-> | (-> & _ & _)]; [done|by destruct (is_adapter_available self)]. }
  assert (Hinf :
    is_adapter_available self = true ->
    get_adapter_module self KEY_INFUSED = None
    ∧ get_adapter_module self VALUE_INFUSED = None).
  { intros Hav. destruct Hno as [Hno | (_ & ? & ?)]; [congruence|done]. }
  destruct (linear_qkv self) as [fwd|fwd|fwd]; simpl in Hmixed; [| |done].
  - destruct (fwd hidden_states) as [m ln] eqn:Hf. simpl in Hmixed.
    inversion Hmixed; subst m. simpl.
    destruct (is_adapter_available self) eqn:Hav.
    + destruct (get_adapter_module self LORA_KQV_ADAPTER); [done|]. simpl.
      destruct (Hinf eq_refl) as [-> ->].
      destruct (split_mixed_qkv self mixed) as [[[q k] v]|e]; done.
    + simpl. destruct (split_mixed_qkv self mixed) as [[[q k] v]|e]; done.
  - inversion Hmixed; subst mixed. simpl.
    destruct (is_adapter_available self) eqn:Hav.
    + destruct (get_adapter_module self LORA_KQV_ADAPTER); [done|]. simpl.
      destruct (Hinf eq_refl) as [-> ->].
      destruct (split_mixed_qkv self _) as [[[q k] v]|e]; done.
    + simpl. destruct (split_mixed_qkv self _) as [[[q k] v]|e]; done.
Qed.

(** The view, split and reshape never raise [ValueError]. *)
Lemma split_mixed_qkv_no_value_error (self : Self elt) (mixed : Tensor elt) :
  split_mixed_qkv self mixed ≠ Raise ValueError.
Proof.
  unfold split_mixed_qkv, floordiv, view, split, size, reshape, infer_size.
  repeat (case_decide || case_match || simpl); discriminate.
Qed.

Lemma apply_infused_no_value_error adapter (query x : Tensor elt) :
  apply_infused to_dtype_of adapter query x ≠ Raise ValueError.
Proof.
  unfold apply_infused, index, reshape, infer_size.
  repeat (case_decide || case_match || simpl); discriminate.
Qed.

(** Once the projection's output is unpacked, the method raises
    [ValueError] exactly for an unrecognized class. *)
Theorem value_error_iff_unrecognized (self : Self elt) (hidden_states : Tensor elt) :
  qkv self hidden_states = Raise ValueError
  ↔ recognized (linear_qkv self) = false.
Proof.
  split.
  - intros Hraise. destruct (recognized (linear_qkv self)) eqn:Hrec; [|done].
    exfalso. revert Hraise. unfold get_query_key_value_tensors.
    pose proof (split_mixed_qkv_no_value_error self) as Hsplit.
    pose proof apply_infused_no_value_error as Hinf.
    destruct (linear_qkv self) as [fwd|fwd|fwd]; [| |done]; simpl;
      [destruct (fwd hidden_states) as [m ln]; simpl|];
      (destruct (is_adapter_available self); simpl;
       [destruct (get_adapter_module self LORA_KQV_ADAPTER) as [lora|]; simpl|]);
      (destruct (split_mixed_qkv self _) as [[[q k] v]|e] eqn:Hs; simpl;
       [|intros [= ->]; by eapply Hsplit]);
      try discriminate;
      (destruct (get_adapter_module self KEY_INFUSED) as [ka|];
       destruct (get_adapter_module self VALUE_INFUSED) as [va|]; simpl;
       try discriminate);
      repeat (match goal with
              | |- context [apply_infused ?f ?a ?x ?y] =>
                  let E := fresh in
                  destruct (apply_infused f a x y) eqn:E; simpl;
                  [|intros [= ->]; by eapply Hinf]
              end); discriminate.
  - intros Hrec. unfold get_query_key_value_tensors.
    destruct (linear_qkv self); try discriminate Hrec. reflexivity.
Qed.

(** C9, as amended: provided a [TELayerNormColumnParallelLinear] returns
    its layernorm output (its flag [return_layernorm_output] is set, as
    [mcore_register_adapters] sets it) and the call of an unrecognized
    [linear_qkv] returns something that can be unpacked,
    [get_query_key_value_tensors] raises [ValueError] exactly when
    [self.linear_qkv] is an instance of neither
    [TELayerNormColumnParallelLinear] nor [TEColumnParallelLinear]. *)
Theorem value_error_iff_unrecognized_class (l : PatchedLinearQKV elt)
  (self : Self elt) (hidden_states : Tensor elt) :
  layernorm_returned l = true ->
  returns_iterable l hidden_states = true ->
  get_query_key_value_tensors_unpacking tensor_add to_dtype_of l self hidden_states
  = Raise ValueError
  ↔ patched_recognized l = false.
Proof.
  intros Hflag Hiter.
  destruct l as [flag fwd|fwd|call]; simpl in *.
  - subst flag. rewrite value_error_iff_unrecognized. done.
  - rewrite value_error_iff_unrecognized. done.
  - split; [done|]. intros _.
    destruct (call hidden_states) as [t| |items]; simpl in *; [| done |].
    + unfold unbind. destruct (shape t) as [|d rest]; [by case_bool_decide|].
      simpl. by destruct (_ <$> _) as [|? [|? [|? ?]]].
    + by destruct items as [|? [|? [|? ?]]].
Qed.

(** C4, as amended: on a non-empty input ([sq], [b], [hn], [ng] at least 1)
    with [ng] dividing [np] and no LoRA or IA3 adapter taking part, whenever
    a recognized [linear_qkv] produces a [mixed_qkv] of shape
    [sq, b, ng*((np/ng)+2)*hn], the method returns query, key and value of
    shapes [sq, b, np, hn], [sq, b, ng, hn], [sq, b, ng, hn]; every query
    group's row of [mixed_qkv] is its [(np/ng)*hn] query entries followed by
    its [hn] key entries and its [hn] value entries. *)
Theorem qkv_shapes_and_split (self : Self elt)
  (hidden_states mixed : Tensor elt) (sq b : nat) :
  let np := num_attention_heads_per_partition self in
  let ng := num_query_groups_per_partition self in
  let hn := hidden_size_per_attention_head self in
  0 < sq -> 0 < b -> 0 < ng -> 0 < hn -> (ng | np) ->
  no_adapter_fires self ->
  mixed_qkv_of (linear_qkv self) hidden_states = Some mixed ->
  shape mixed = [sq; b; ng * (np / ng + 2) * hn] ->
  well_formed mixed ->
  ∃ query key value,
    qkv self hidden_states = Ok (query, key, value)
    ∧ shape query = [sq; b; np; hn]
    ∧ shape key = [sq; b; ng; hn]
    ∧ shape value = [sq; b; ng; hn]
    ∧ well_formed query ∧ well_formed key ∧ well_formed value
    ∧ rows_split (np / ng * hn) hn hn
        (data mixed) (data query) (data key) (data value).
Proof.
  intros np ng hn Hsq Hb Hng Hhn Hdiv Hno Hmixed Hshape Hwf.
  rewrite (qkv_without_adapters self hidden_states mixed Hno Hmixed).
  rewrite (split_mixed_qkv_ok self mixed sq b Hsq Hb Hng Hhn Hshape).
  fold np ng hn. eexists _, _, _. split; [reflexivity|].
  assert (Hnp : ng * (np / ng) = np).
  { destruct Hdiv as [k ->]. rewrite Nat.div_mul by lia. lia. }
  assert (Hlen : length (data mixed) = sq * (b * ng) * ((np / ng + 2) * hn)).
  { unfold well_formed, numel in Hwf. rewrite Hshape in Hwf. simpl in Hwf.
    rewrite Hwf. lia. }
  unfold well_formed, numel. simpl. rewrite Hnp.
  repeat split.
  - rewrite (cut_rows_length _ _ _ _ _ Hlen) by lia. rewrite <- Hnp at 2. lia.
  - rewrite (cut_rows_length _ _ _ _ _ Hlen) by lia. lia.
  - rewrite (cut_rows_length _ _ _ _ _ Hlen) by lia. lia.
  - replace ((np / ng + 2) * hn) with (np / ng * hn + hn + hn) in * by lia.
    apply cut_rows_split. exact Hlen.
Qed.

End Facts.

Lemma example_grouped_result :
  get_query_key_value_tensors zadd zcast example_grouped (iota [1; 1; 4])
  = Ok ({| shape := [1; 1; 4; 1]; data := [1; 2; 5; 6]%Z |},
        {| shape := [1; 1; 2; 1]; data := [3; 7]%Z |},
        {| shape := [1; 1; 2; 1]; data := [4; 8]%Z |}).
Proof. reflexivity. Qed.

(** Four heads in two groups: shapes and split of the example. *)
Lemma qkv_shapes_and_split_witness :
  ∃ query key value,
    get_query_key_value_tensors zadd zcast example_grouped (iota [1; 1; 4])
    = Ok (query, key, value)
    ∧ shape query = [1; 1; 4; 1]
    ∧ shape key = [1; 1; 2; 1]
    ∧ shape value = [1; 1; 2; 1]
    ∧ well_formed query ∧ well_formed key ∧ well_formed value
    ∧ rows_split 2 1 1 (data (iota [1; 1; 8]))
        (data query) (data key) (data value).
Proof.
  apply (qkv_shapes_and_split zadd zcast example_grouped
           (iota [1; 1; 4]) (iota [1; 1; 8]) 1 1).
  - simpl; lia.
  - simpl; lia.
  - simpl; lia.
  - simpl; lia.
  - exists 2. reflexivity.
  - left. reflexivity.
  - reflexivity.
  - reflexivity.
  - reflexivity.
Defined.

(** C4, as stated, fails: with three heads in two groups the query has two
    heads, not three; with IA3 adapters the key is not the key entries of
    the rows; on an empty sequence, or with heads of size zero, the reshape
    of the query raises; without query groups the division raises. *)
Lemma qkv_claim_fails :
  (mixed_qkv_of (linear_qkv example_uneven) (iota [1; 1; 4]) = Some (iota [1; 1; 6])
   ∧ shape (iota [1; 1; 6]) = [1; 1; 2 * (3 / 2 + 2) * 1]
   ∧ ∃ query key value,
       get_query_key_value_tensors zadd zcast example_uneven (iota [1; 1; 4])
       = Ok (query, key, value)
       ∧ shape query = [1; 1; 2; 1]
       ∧ shape query ≠ [1; 1; 3; 1])
  ∧ (mixed_qkv_of (linear_qkv example_ia3) (iota [1; 1; 4]) = Some (iota [1; 1; 8])
     ∧ ∃ query key value,
         get_query_key_value_tensors zadd zcast example_ia3 (iota [1; 1; 4])
         = Ok (query, key, value)
         ∧ data key = [6; 14]%Z
         ∧ cut_rows 4 2 2 1 (data (iota [1; 1; 8])) = [3; 7]%Z)
  ∧ (mixed_qkv_of (linear_qkv example_empty) (iota [0; 1; 4]) = Some (iota [0; 1; 8])
     ∧ shape (iota [0; 1; 8]) = [0; 1; 2 * (4 / 2 + 2) * 1]
     ∧ get_query_key_value_tensors zadd zcast example_empty (iota [0; 1; 4])
       = Raise RuntimeError)
  ∧ (mixed_qkv_of (linear_qkv example_no_width) (iota [1; 1; 4]) = Some (iota [1; 1; 0])
     ∧ shape (iota [1; 1; 0]) = [1; 1; 2 * (4 / 2 + 2) * 0]
     ∧ get_query_key_value_tensors zadd zcast example_no_width (iota [1; 1; 4])
       = Raise RuntimeError)
  ∧ (mixed_qkv_of (linear_qkv example_no_group) (iota [1; 1; 4]) = Some (iota [1; 1; 0])
     ∧ get_query_key_value_tensors zadd zcast example_no_group (iota [1; 1; 4])
       = Raise ZeroDivisionError).
Proof.
  split; [|split; [|split; [|split]]].
  - split; [reflexivity|]. split; [reflexivity|].
    eexists _, _, _. split; [reflexivity|]. split; [reflexivity|]. discriminate.
  - split; [reflexivity|].
    eexists _, _, _. split; [reflexivity|]. split; reflexivity.
  - split; [reflexivity|]. split; reflexivity.
  - split; [reflexivity|]. split; reflexivity.
  - split; reflexivity.
Qed.

(** C9, as stated, fails: a fused projection whose flag
    [return_layernorm_output] is not set returns one tensor; line 78 unpacks
    its three rows into two names and raises [ValueError], although the
    class is recognized. *)
Lemma fused_without_layernorm_raises :
  patched_recognized example_flag_unset = true
  ∧ get_query_key_value_tensors_unpacking zadd zcast example_flag_unset
      example_grouped (iota [3; 1; 4])
    = Raise ValueError.
Proof. split; reflexivity. Qed.

(** With the flag set the recognized projection raises no [ValueError]. *)
Lemma value_error_iff_unrecognized_class_witness :
  layernorm_returned example_flag_set = true
  ∧ returns_iterable example_flag_set (iota [1; 1; 4]) = true
  ∧ (get_query_key_value_tensors_unpacking zadd zcast example_flag_set
       example_grouped (iota [1; 1; 4])
     = Raise ValueError
     ↔ patched_recognized example_flag_set = false).
Proof.
  split; [reflexivity|]. split; [reflexivity|].
  apply (value_error_iff_unrecognized_class zadd zcast example_flag_set
           example_grouped (iota [1; 1; 4])); reflexivity.
Defined.

End MCoreSelfAttentionMixinFacts.

(** ** MLP mixin *)

Module MCoreMLPMixinFacts.

Import Torch MCoreMLPMixin.

Section Facts.

Context {elt : Type}.
Variable tensor_add : Tensor elt -> Tensor elt -> Tensor elt.
Variable bias_gelu_impl : Tensor elt -> option (Tensor elt) -> Tensor elt.
Variable gelu : Tensor elt -> Tensor elt.

(** With no [MLP_INFUSED] adapter the forward pass is that of the module
    without any adapter: the hook between activation and second projection
    does nothing. *)
Lemma forward_without_adapter (self : Self elt) (hidden_states : Tensor elt) :
  get_adapter_module self MLP_INFUSED = None ->
  forward tensor_add bias_gelu_impl gelu self hidden_states
  = forward tensor_add bias_gelu_impl gelu (without_adapters self) hidden_states.
Proof. intros Hno. unfold forward. rewrite Hno. reflexivity. Qed.

(** Without fusion and without adapter: second projection of the activated
    first projection. *)
Lemma forward_unfused (self : Self elt) (hidden_states : Tensor elt) :
  get_adapter_module self MLP_INFUSED = None ->
  bias_activation_fusion self = false ->
  forward tensor_add bias_gelu_impl gelu self hidden_states
  = Ok (linear_fc2 self
          (call_activation gelu (activation_func self)
             (match (linear_fc1 self hidden_states).2 with
              | Some bias => tensor_add (linear_fc1 self hidden_states).1 bias
              | None => (linear_fc1 self hidden_states).1
              end))).
Proof.
  intros Hno Hfusion. unfold forward. rewrite Hno, Hfusion.
  destruct (linear_fc1 self hidden_states) as [x bias]. simpl.
  by destruct (linear_fc2 self _).
Qed.

End Facts.

End MCoreMLPMixinFacts.

(** ** Embedding mixin *)

Module MCoreGPTEmbeddingMixinFacts.

Import Torch MCoreGPTEmbeddingMixin.

Section Facts.

Context {elt ids : Type}.

Implicit Types (self : Self elt ids).

(** Without available adapters the mixin returns what the base class
    returns. *)
Lemma forward_unavailable self (input_ids position_ids : ids) :
  is_adapter_available self = false ->
  forward self input_ids position_ids
  = Ok (super_forward self input_ids position_ids).
Proof. intros Hno. unfold forward. by rewrite Hno. Qed.

(** Adapters available but none under [PTUNING_ADAPTER]: reading
    [virtual_tokens] fails before the adapter is tested. *)
Lemma forward_missing_ptuning self (input_ids position_ids : ids) sq bs hs :
  is_adapter_available self = true ->
  get_adapter_module self PTUNING_ADAPTER = None ->
  shape (super_forward self input_ids position_ids) = [sq; bs; hs] ->
  forward self input_ids position_ids = Raise AttributeError.
Proof. intros Hav Hno Hs. unfold forward. by rewrite Hav, Hs, Hno. Qed.

(** C10: when the prompt-tuning adapter is present whenever adapters are
    available, and returns [virtual_tokens] rows of the embedding's batch and
    hidden size, the mixin's output has the [sequence, batch, hidden] shape
    of the base embedding, whether the adapter fires or not. *)
Theorem forward_preserves_shape self (input_ids position_ids : ids) sq bs hs :
  shape (super_forward self input_ids position_ids) = [sq; bs; hs] ->
  (is_adapter_available self = true ->
   is_Some (get_adapter_module self PTUNING_ADAPTER)) ->
  (∀ adapter, get_adapter_module self PTUNING_ADAPTER = Some adapter ->
              shape (prompt_forward adapter bs) = [virtual_tokens adapter; bs; hs]) ->
  ∃ out, forward self input_ids position_ids = Ok out
         ∧ shape out = [sq; bs; hs].
Proof.
  intros Hs Hpresent Hrows. unfold forward.
  destruct (is_adapter_available self); [|by eauto].
  rewrite Hs. destruct (Hpresent eq_refl) as [adapter Ha]. rewrite Ha. simpl.
  destruct (decide (virtual_tokens adapter ≤ sq)) as [Hle|_]; [|by eauto].
  unfold concat0, slice_from. rewrite Hs, (Hrows adapter Ha). simpl.
  destruct (decide ([virtual_tokens adapter; bs; hs] = [0])); [done|].
  destruct (decide ([sq - virtual_tokens adapter; bs; hs] = [0])); [done|].
  destruct (decide ([bs; hs] = [bs; hs])); [|done].
  eexists. split; [done|]. simpl. f_equal. lia.
Qed.

(** When the adapter fires, the first [virtual_tokens] rows of the base
    output are replaced by the virtual embeddings and the rest is kept. *)
Lemma forward_fires self (input_ids position_ids : ids) sq bs hs adapter :
  shape (super_forward self input_ids position_ids) = [sq; bs; hs] ->
  is_adapter_available self = true ->
  get_adapter_module self PTUNING_ADAPTER = Some adapter ->
  shape (prompt_forward adapter bs) = [virtual_tokens adapter; bs; hs] ->
  virtual_tokens adapter ≤ sq ->
  forward self input_ids position_ids
  = Ok {| shape := [sq; bs; hs];
          data := data (prompt_forward adapter bs)
                  ++ drop (virtual_tokens adapter * (bs * hs))
                       (data (super_forward self input_ids position_ids)) |}.
Proof.
  intros Hs Hav Ha Hrows Hle. unfold forward. rewrite Hav, Hs, Ha. simpl.
  destruct (decide (virtual_tokens adapter ≤ sq)); [|done].
  unfold concat0, slice_from. rewrite Hs, Hrows. simpl.
  destruct (decide ([virtual_tokens adapter; bs; hs] = [0])); [done|].
  destruct (decide ([sq - virtual_tokens adapter; bs; hs] = [0])); [done|].
  destruct (decide ([bs; hs] = [bs; hs])); [|done].
  do 2 f_equal.
  - f_equal. lia.
  - by rewrite Nat.mul_1_r.
Qed.

End Facts.

(** Two virtual tokens swapped into a sequence of three. *)
Lemma forward_preserves_shape_witness :
  ∃ out, forward example_tuned [10; 20; 30]%Z [0; 1; 2]%Z = Ok out
         ∧ shape out = [3; 1; 2].
Proof.
  apply (forward_preserves_shape example_tuned [10; 20; 30]%Z [0; 1; 2]%Z 3 1 2).
  - reflexivity.
  - intros _. exists example_prompt. reflexivity.
  - intros adapter Ha. injection Ha as <-. reflexivity.
Defined.

Lemma example_tuned_result :
  forward example_tuned [10; 20; 30]%Z [0; 1; 2]%Z
  = Ok {| shape := [3; 1; 2]; data := [0; 0; 0; 0; 30; 31]%Z |}.
Proof. reflexivity. Qed.

(** C1 at the failing input: with adapters available but none registered
    under [PTUNING_ADAPTER], every [get_adapter_module] call returns None and
    the base class returns a tensor, yet the mixin raises. *)
Theorem embedding_mixin_raises_without_ptuning :
  is_adapter_available example_other_name = true
  ∧ (∀ name, get_adapter_module example_other_name name = None)
  ∧ super_forward example_other_name [10; 20; 30]%Z [0; 1; 2]%Z
    = {| shape := [3; 1; 2]; data := [10; 11; 20; 21; 30; 31]%Z |}
  ∧ forward example_other_name [10; 20; 30]%Z [0; 1; 2]%Z = Raise AttributeError.
Proof. repeat split. Qed.

End MCoreGPTEmbeddingMixinFacts.

(** ** Class swapping: outcome and repetition *)

Module ClassSwapLaws.

Import ClassSwap ClassSwapFacts.

Section Laws.

Variable _target_ : AdapterConfig -> string.

(** X2: for the MLP, embedding and transformer-layer mixins the swap always
    succeeds; for the self-attention mixin it succeeds exactly when the
    module's [linear_qkv] attribute holds an object, and raises
    [AttributeError] when it holds none. *)
Theorem swap_outcome (h : gmap loc PyObject) (module : loc) (o : PyObject)
  (M : PyClass) :
  h !! module = Some o ->
  is_concrete_mixin M = true ->
  (M ≠ MCoreSelfAttentionMixin ->
   (swap_mcore_mixin _target_ module M h).2 = Ok tt)
  ∧ (M = MCoreSelfAttentionMixin ->
     ((swap_mcore_mixin _target_ module M h).2 = Ok tt
      ↔ ∃ lq, ob_dict o !! "linear_qkv" = Some (VRef lq) ∧ is_Some (h !! lq))
     ∧ ((∀ lq, ob_dict o !! "linear_qkv" ≠ Some (VRef lq)) ->
        (swap_mcore_mixin _target_ module M h).2 = Raise AttributeError)).
Proof.
  intros Hm HM. unfold swap_mcore_mixin, seq.
  rewrite (assign_class_lookup _ _ _ _ Hm).
  unfold mcore_register_adapters. rewrite lookup_insert_eq.
  split.
  - intros Hne. destruct M; try discriminate HM; try done; simpl;
      by erewrite set_accepted_lookup by apply lookup_insert_eq.
  - intros ->. simpl. unfold seq.
    erewrite set_accepted_lookup by apply lookup_insert_eq.
    rewrite insert_insert_eq. unfold assign_sub_attr.
    rewrite lookup_insert_eq. simpl.
    destruct (ob_dict o !! "linear_qkv") as [[| | | |lq]|] eqn:Hq; simpl;
      try (split; [split; [discriminate|intros (lq & [=] & _)]|done]).
    destruct (decide (lq = module)) as [->|Hne].
    + rewrite lookup_insert_eq. simpl. split; [|intros Hno; by destruct (Hno module)].
      split; [|done]. intros _. exists module. split; [done|]. by rewrite Hm.
    + rewrite lookup_insert_ne by done.
      destruct (h !! lq) as [ol|] eqn:Hol; simpl.
      * split; [|intros Hno; by destruct (Hno lq)].
        split; [|done]. intros _. exists lq. split; [done|]. by rewrite Hol.
      * split; [|intros Hno; by destruct (Hno lq)].
        split; [discriminate|]. intros (lq' & [= <-] & Hsome).
        rewrite Hol in Hsome. by destruct Hsome.
Qed.

(** X3: swapping is idempotent: a second [swap_mcore_mixin] with the same
    mixin leaves the store of the first one and has the same outcome. *)
Theorem swap_idempotent (h : gmap loc PyObject) (module : loc) (o : PyObject)
  (M : PyClass) :
  h !! module = Some o ->
  swap_mcore_mixin _target_ module M (swap_mcore_mixin _target_ module M h).1
  = swap_mcore_mixin _target_ module M h.
Proof.
  intros Hm. unfold swap_mcore_mixin at 2 3. unfold seq.
  rewrite (assign_class_lookup _ _ _ _ Hm).
  unfold mcore_register_adapters. rewrite lookup_insert_eq.
  destruct (decide (M = MCoreSelfAttentionMixin)) as [->|HM].
  - simpl. unfold seq.
    erewrite set_accepted_lookup by apply lookup_insert_eq.
    rewrite insert_insert_eq.
    set (s := list_to_set _).
    set (o1 := set_accepted s (set_class MCoreSelfAttentionMixin o)).
    unfold assign_sub_attr. rewrite lookup_insert_eq.
    change (ob_dict o1) with (ob_dict o).
    assert (Hagain : ∀ o2 h2,
      ob_class o2 = MCoreSelfAttentionMixin ->
      accepted_adapter_types o2 = s ->
      <[module := o2]> h2 = h2 ->
      assign_sub_attr module "linear_qkv" "return_layernorm_output" (VBool true) h2
      = (h2, assign_sub_attr module "linear_qkv" "return_layernorm_output"
               (VBool true) h2).2 ->
      swap_mcore_mixin _target_ module MCoreSelfAttentionMixin h2
      = assign_sub_attr module "linear_qkv" "return_layernorm_output" (VBool true) h2).
    { intros o2 h2 Hc Ha Hins Hfix.
      assert (Hl : h2 !! module = Some o2) by (rewrite <- Hins; apply lookup_insert_eq).
      unfold swap_mcore_mixin, seq. rewrite (assign_class_lookup _ _ _ _ Hl).
      assert (Ho2 : set_class MCoreSelfAttentionMixin o2 = o2)
        by (destruct o2; simpl in *; by subst).
      rewrite Ho2, Hins. unfold mcore_register_adapters. rewrite Hl, Hc. simpl.
      unfold seq. rewrite (set_accepted_lookup _ _ _ _ Hl). fold s.
      assert (Ho2' : set_accepted s o2 = o2) by (destruct o2; simpl in *; by subst).
      by rewrite Ho2', Hins. }
    destruct (ob_dict o !! "linear_qkv") as [v|] eqn:Hq;
      [destruct v as [| | | |lq]|]; simpl;
      try (rewrite (Hagain o1 _ eq_refl eq_refl (insert_insert_eq _ _ _ _));
           [unfold assign_sub_attr; rewrite lookup_insert_eq;
            change (ob_dict o1) with (ob_dict o); by rewrite Hq
           |unfold assign_sub_attr; rewrite lookup_insert_eq;
            change (ob_dict o1) with (ob_dict o); by rewrite Hq]).
    destruct (decide (lq = module)) as [->|Hne].
    + rewrite lookup_insert_eq. simpl. rewrite insert_insert_eq.
      set (o2 := set_attr _ _ o1).
      assert (Hq2 : ob_dict o2 !! "linear_qkv" = Some (VRef module))
        by (unfold o2; simpl; by rewrite lookup_insert_ne).
      assert (Hfix : assign_sub_attr module "linear_qkv" "return_layernorm_output"
                       (VBool true) (<[module := o2]> h)
                     = (<[module := o2]> h, Ok tt)).
      { unfold assign_sub_attr. rewrite lookup_insert_eq, Hq2, lookup_insert_eq.
        rewrite insert_insert_eq. do 2 f_equal. unfold o2, set_attr. simpl.
        f_equal. apply insert_insert_eq. }
      rewrite (Hagain o2 _ eq_refl eq_refl (insert_insert_eq _ _ _ _));
        by rewrite Hfix.
    + rewrite lookup_insert_ne by done.
      destruct (h !! lq) as [ol|] eqn:Hol; simpl.
      * set (ol2 := set_attr _ _ ol). set (h1 := <[module := o1]> h).
        assert (Hm2 : <[lq := ol2]> h1 !! module = Some o1)
          by (rewrite lookup_insert_ne by done; apply lookup_insert_eq).
        assert (Hfix : assign_sub_attr module "linear_qkv" "return_layernorm_output"
                         (VBool true) (<[lq := ol2]> h1)
                       = (<[lq := ol2]> h1, Ok tt)).
        { unfold assign_sub_attr. rewrite Hm2.
          change (ob_dict o1) with (ob_dict o). rewrite Hq, lookup_insert_eq.
          rewrite insert_insert_eq. do 2 f_equal. unfold ol2, set_attr. simpl.
          f_equal. apply insert_insert_eq. }
        rewrite (Hagain o1 _ eq_refl eq_refl); [by rewrite Hfix| |by rewrite Hfix].
        by apply insert_id.
      * rewrite (Hagain o1 _ eq_refl eq_refl (insert_insert_eq _ _ _ _));
          unfold assign_sub_attr; rewrite lookup_insert_eq;
          change (ob_dict o1) with (ob_dict o); rewrite Hq;
          rewrite lookup_insert_ne by done; by rewrite Hol.
  - assert (Hstore : ∀ s r,
      (∀ h2 o2, h2 !! module = Some o2 -> ob_class o2 = M ->
                accepted_adapter_types o2 = s ->
                mcore_register_adapters _target_ module h2 = (h2, r)) ->
      swap_mcore_mixin _target_ module M
        (<[module := set_accepted s (set_class M o)]> h)
      = (<[module := set_accepted s (set_class M o)]> h, r)).
    { intros s r Hreg. unfold swap_mcore_mixin, seq.
      erewrite assign_class_lookup by apply lookup_insert_eq.
      rewrite insert_insert_eq.
      change (set_class M (set_accepted s (set_class M o)))
        with (set_accepted s (set_class M o)).
      by rewrite (Hreg _ (set_accepted s (set_class M o))
                    (lookup_insert_eq _ _ _) eq_refl eq_refl). }
    assert (Hkeep : ∀ (types : list string) h2 o2,
      h2 !! module = Some o2 ->
      accepted_adapter_types o2 = list_to_set types ->
      set_accepted_adapter_types module types h2 = (h2, Ok tt)).
    { intros types h2 o2 Hl Ha. rewrite (set_accepted_lookup _ _ _ _ Hl).
      f_equal. rewrite <- Ha.
      replace (set_accepted (accepted_adapter_types o2) o2) with o2 by by destruct o2.
      by apply insert_id. }
    destruct M; try done; simpl; unfold raise; simpl;
      try (change (<[module := set_class ?c o]> h)
             with (<[module := set_accepted (accepted_adapter_types o) (set_class c o)]> h);
           apply Hstore; intros h2 o2 Hl Hc _;
           unfold mcore_register_adapters; by rewrite Hl, Hc);
      (erewrite set_accepted_lookup by apply lookup_insert_eq;
       rewrite insert_insert_eq; simpl;
       apply Hstore; intros h2 o2 Hl Hc Ha;
       unfold mcore_register_adapters; rewrite Hl, Hc;
       by apply (Hkeep _ _ _ Hl)).
Qed.

End Laws.

Lemma swap_outcome_witness :
  example_store !! 1 = Some example_attention
  ∧ is_concrete_mixin MCoreSelfAttentionMixin = true
  ∧ ((swap_mcore_mixin example_target 1 MCoreSelfAttentionMixin example_store).2
     = Ok tt
     ↔ ∃ lq, ob_dict example_attention !! "linear_qkv" = Some (VRef lq)
             ∧ is_Some (example_store !! lq)).
Proof.
  split; [reflexivity|]. split; [reflexivity|].
  destruct (swap_outcome example_target example_store 1 example_attention
              MCoreSelfAttentionMixin eq_refl eq_refl) as [_ Hattn].
  exact (proj1 (Hattn eq_refl)).
Defined.

Lemma swap_idempotent_witness :
  example_store !! 1 = Some example_attention
  ∧ swap_mcore_mixin example_target 1 MCoreSelfAttentionMixin
      (swap_mcore_mixin example_target 1 MCoreSelfAttentionMixin example_store).1
    = swap_mcore_mixin example_target 1 MCoreSelfAttentionMixin example_store.
Proof.
  split; [reflexivity|].
  apply (swap_idempotent example_target example_store 1 example_attention).
  reflexivity.
Defined.

End ClassSwapLaws.

(** ** Self-attention mixin: outcomes, LoRA and IA3 *)

Module MCoreSelfAttentionMixinLaws.

Import Torch TorchFacts MCoreSelfAttentionMixin MCoreSelfAttentionMixinFacts.

Section Laws.

Context {elt : Type}.
Variable tensor_add : Tensor elt -> Tensor elt -> Tensor elt.
Variable to_dtype_of : Tensor elt -> Tensor elt -> Tensor elt.

Local Abbreviation qkv := (get_query_key_value_tensors tensor_add to_dtype_of).

(** On a three-dimensional input with at least one query group, lines
    98-123 either raise [RuntimeError] or the input is non-empty and has the
    expected width. *)
Lemma split_mixed_qkv_fails (self : Self elt) (mixed : Tensor elt) (sq b h : nat) :
  let np := num_attention_heads_per_partition self in
  let ng := num_query_groups_per_partition self in
  let hn := hidden_size_per_attention_head self in
  0 < ng ->
  shape mixed = [sq; b; h] ->
  split_mixed_qkv self mixed = Raise RuntimeError
  ∨ (0 < sq ∧ 0 < b ∧ 0 < hn ∧ h = ng * (np / ng + 2) * hn).
Proof.
  intros np ng hn Hng Hshape.
  unfold split_mixed_qkv. fold np ng hn.
  unfold floordiv. destruct (decide (ng = 0)); [lia|]. simpl.
  rewrite Hshape. simpl. set (w := (np / ng + 2) * hn).
  unfold view, numel. rewrite Hshape. simpl.
  destruct (decide (sq * (b * (ng * (w * 1))) = sq * (b * (h * 1))))
    as [Heq|Hne]; [|by left].
  simpl. unfold split. simpl.
  destruct (decide (np / ng * hn + (hn + (hn + 0)) = w))
    as [_|Hne]; [|exfalso; apply Hne; unfold w; lia].
  simpl. rewrite !(narrow_last _ sq b ng w) by done.
  unfold size. simpl. unfold reshape, infer_size. simpl.
  destruct (decide (sq * (b * (hn * 1)) = 0)) as [Hz|Hnz]; [by left|].
  right. assert (0 < sq ∧ 0 < b ∧ 0 < hn) as (? & ? & ?) by nia.
  repeat split; try done. unfold w in Heq. nia.
Qed.

(** X4: with a recognized projection, no adapter taking part and a
    three-dimensional [mixed_qkv] of shape [sq, b, h], the outcome is
    decided by the sizes: [ZeroDivisionError] without query groups; a result
    when [sq], [b], [hn] are positive and [h = ng*((np//ng)+2)*hn];
    [RuntimeError] in every other case. *)
Theorem qkv_outcome (self : Self elt) (hidden_states mixed : Tensor elt)
  (sq b h : nat) :
  let np := num_attention_heads_per_partition self in
  let ng := num_query_groups_per_partition self in
  let hn := hidden_size_per_attention_head self in
  no_adapter_fires self ->
  mixed_qkv_of (linear_qkv self) hidden_states = Some mixed ->
  shape mixed = [sq; b; h] ->
  (ng = 0 -> qkv self hidden_states = Raise ZeroDivisionError)
  ∧ (0 < ng -> 0 < sq ∧ 0 < b ∧ 0 < hn ∧ h = ng * (np / ng + 2) * hn ->
     ∃ parts, qkv self hidden_states = Ok parts)
  ∧ (0 < ng -> ¬ (0 < sq ∧ 0 < b ∧ 0 < hn ∧ h = ng * (np / ng + 2) * hn) ->
     qkv self hidden_states = Raise RuntimeError).
Proof.
  intros np ng hn Hno Hmixed Hshape.
  rewrite (qkv_without_adapters tensor_add to_dtype_of self hidden_states mixed
             Hno Hmixed).
  split; [|split].
  - intros Hz. unfold split_mixed_qkv, floordiv. fold ng.
    destruct (decide (ng = 0)); [done|contradiction].
  - intros Hng (Hsq & Hb & Hhn & ->).
    rewrite (split_mixed_qkv_ok self mixed sq b Hsq Hb Hng Hhn Hshape). eauto.
  - intros Hng Hnot.
    destruct (split_mixed_qkv_fails self mixed sq b h Hng Hshape); [done|].
    contradiction.
Qed.

Lemma rows_split_Permutation nq nk nv (m q k v : list elt) :
  rows_split nq nk nv m q k v -> q ++ k ++ v ≡ₚ m.
Proof.
  induction 1 as [|q k v m qs ks vs _ _ _ _ IH]; [done|].
  rewrite <- IH. rewrite <- (app_assoc q qs).
  apply Permutation_app_head.
  rewrite (Permutation_app_swap_app qs (k ++ ks)). rewrite <- (app_assoc k ks).
  apply Permutation_app_head.
  rewrite (Permutation_app_swap_app ks qs).
  rewrite (Permutation_app_swap_app ks v vs).
  apply Permutation_app_swap_app.
Qed.

(** X5: the split neither drops nor repeats an entry: on a non-empty input
    of the expected width, with no adapter taking part, the entries of
    query, key and value together are exactly those of [mixed_qkv]. *)
Theorem qkv_partition (self : Self elt) (hidden_states mixed : Tensor elt)
  (sq b : nat) :
  let np := num_attention_heads_per_partition self in
  let ng := num_query_groups_per_partition self in
  let hn := hidden_size_per_attention_head self in
  0 < sq -> 0 < b -> 0 < ng -> 0 < hn ->
  no_adapter_fires self ->
  mixed_qkv_of (linear_qkv self) hidden_states = Some mixed ->
  shape mixed = [sq; b; ng * (np / ng + 2) * hn] ->
  well_formed mixed ->
  ∃ query key value,
    qkv self hidden_states = Ok (query, key, value)
    ∧ data query ++ data key ++ data value ≡ₚ data mixed.
Proof.
  intros np ng hn Hsq Hb Hng Hhn Hno Hmixed Hshape Hwf.
  rewrite (qkv_without_adapters tensor_add to_dtype_of self hidden_states mixed
             Hno Hmixed).
  rewrite (split_mixed_qkv_ok self mixed sq b Hsq Hb Hng Hhn Hshape).
  fold np ng hn. eexists _, _, _. split; [reflexivity|]. simpl.
  apply (rows_split_Permutation (np / ng * hn) hn hn).
  replace ((np / ng + 2) * hn) with (np / ng * hn + hn + hn) by lia.
  apply cut_rows_split.
  unfold well_formed, numel in Hwf. rewrite Hshape in Hwf. simpl in Hwf.
  rewrite Hwf. lia.
Qed.

Lemma cut_rows_zip_with (f : elt -> elt -> elt) w rows start len :
  ∀ l1 l2 : list elt,
  length l1 = rows * w -> length l2 = rows * w -> start + len ≤ w ->
  cut_rows w rows start len (zip_with f l1 l2)
  = zip_with f (cut_rows w rows start len l1) (cut_rows w rows start len l2).
Proof.
  unfold cut_rows.
  induction rows as [|rows IH]; intros l1 l2 H1 H2 Hle; simpl; [done|].
  rewrite zip_with_drop, IH by (rewrite ?length_drop; lia).
  rewrite zip_with_take, zip_with_drop, zip_with_take.
  symmetry. apply zip_with_app.
  rewrite !length_take, !length_drop, !length_take. lia.
Qed.

(** With only a LoRA adapter taking part, the method splits the sum of the
    projection and the adapter's output. *)
Lemma qkv_lora_only (self : Self elt) (hidden_states mixed : Tensor elt) lora :
  is_adapter_available self = true ->
  get_adapter_module self LORA_KQV_ADAPTER = Some lora ->
  get_adapter_module self KEY_INFUSED = None ->
  get_adapter_module self VALUE_INFUSED = None ->
  mixed_qkv_of (linear_qkv self) hidden_states = Some mixed ->
  qkv self hidden_states
  = split_mixed_qkv self
      (tensor_add mixed (lora (lora_input_of (linear_qkv self) hidden_states))).
Proof.
  intros Hav Hlora Hk Hv Hmixed. unfold get_query_key_value_tensors.
  rewrite Hav, Hlora, Hk, Hv.
  destruct (linear_qkv self) as [fwd|fwd|fwd]; simpl in *; [| |done].
  - destruct (fwd hidden_states) as [m ln]. simpl in *.
    inversion Hmixed; subst m.
    by destruct (split_mixed_qkv self _) as [[[q k] v]|e].
  - inversion Hmixed; subst mixed.
    by destruct (split_mixed_qkv self _) as [[[q k] v]|e].
Qed.

(** X6: LoRA acts on query, key and value separately.  When tensors of equal
    shape are added entry by entry and the adapter's output has the shape of
    [mixed_qkv], the result with a LoRA adapter is the result of splitting
    [mixed_qkv] plus the result of splitting the adapter's output; the
    adapter reads the layernorm output of a fused projection and the hidden
    states otherwise. *)
Theorem qkv_lora_splits (add : elt -> elt -> elt) (self : Self elt)
  (hidden_states mixed : Tensor elt) lora (sq b : nat) :
  let np := num_attention_heads_per_partition self in
  let ng := num_query_groups_per_partition self in
  let hn := hidden_size_per_attention_head self in
  let delta := lora (lora_input_of (linear_qkv self) hidden_states) in
  (∀ x y, shape x = shape y ->
          tensor_add x y
          = {| shape := shape x; data := zip_with add (data x) (data y) |}) ->
  0 < sq -> 0 < b -> 0 < ng -> 0 < hn ->
  is_adapter_available self = true ->
  get_adapter_module self LORA_KQV_ADAPTER = Some lora ->
  get_adapter_module self KEY_INFUSED = None ->
  get_adapter_module self VALUE_INFUSED = None ->
  mixed_qkv_of (linear_qkv self) hidden_states = Some mixed ->
  shape mixed = [sq; b; ng * (np / ng + 2) * hn] ->
  shape delta = shape mixed ->
  well_formed mixed -> well_formed delta ->
  ∃ q k v qd kd vd,
    split_mixed_qkv self mixed = Ok (q, k, v)
    ∧ split_mixed_qkv self delta = Ok (qd, kd, vd)
    ∧ qkv self hidden_states
      = Ok (tensor_add q qd, tensor_add k kd, tensor_add v vd).
Proof.
  intros np ng hn delta Hadd Hsq Hb Hng Hhn Hav Hlora Hk Hv Hmixed Hshape
    Hdshape Hwf Hdwf.
  rewrite (qkv_lora_only self hidden_states mixed lora Hav Hlora Hk Hv Hmixed).
  fold delta. rewrite Hshape in Hdshape.
  rewrite (Hadd mixed delta) by congruence.
  rewrite (split_mixed_qkv_ok self mixed sq b Hsq Hb Hng Hhn Hshape).
  rewrite (split_mixed_qkv_ok self delta sq b Hsq Hb Hng Hhn Hdshape).
  rewrite (split_mixed_qkv_ok self _ sq b Hsq Hb Hng Hhn
             (Hshape : shape {| shape := shape mixed; data := _ |} = _)).
  fold np ng hn. eexists _, _, _, _, _, _.
  split; [reflexivity|]. split; [reflexivity|].
  rewrite !Hadd by done. simpl.
  assert (Hlen : length (data mixed) = sq * (b * ng) * ((np / ng + 2) * hn)).
  { unfold well_formed, numel in Hwf. rewrite Hshape in Hwf. simpl in Hwf.
    rewrite Hwf. lia. }
  assert (Hdlen : length (data delta) = sq * (b * ng) * ((np / ng + 2) * hn)).
  { unfold well_formed, numel in Hdwf. rewrite Hdshape in Hdwf. simpl in Hdwf.
    rewrite Hdwf. lia. }
  rewrite !(cut_rows_zip_with add _ _ _ _ _ _ Hlen Hdlen) by lia.
  reflexivity.
Qed.

(** X7: key and value adapters come in pairs.  When adapters are
    available, the split itself succeeds (on the projection's output, plus
    the LoRA adapter's if one is registered) and only one of [KEY_INFUSED]
    and [VALUE_INFUSED] is registered, the method raises [AssertionError]. *)
Theorem qkv_unpaired_infused (self : Self elt) (hidden_states mixed : Tensor elt)
  (parts : Tensor elt * Tensor elt * Tensor elt) :
  is_adapter_available self = true ->
  mixed_qkv_of (linear_qkv self) hidden_states = Some mixed ->
  split_mixed_qkv self (with_lora tensor_add self hidden_states mixed) = Ok parts ->
  is_not_none (get_adapter_module self KEY_INFUSED)
  ≠ is_not_none (get_adapter_module self VALUE_INFUSED) ->
  qkv self hidden_states = Raise AssertionError.
Proof.
  intros Hav Hmixed Hsplit Hpair. unfold get_query_key_value_tensors.
  rewrite Hav. unfold with_lora in Hsplit.
  destruct (linear_qkv self) as [fwd|fwd|fwd]; simpl in Hmixed, Hsplit |- *;
    [| |done].
  - destruct (fwd hidden_states) as [m ln]. simpl in *.
    inversion Hmixed; subst m.
    destruct (get_adapter_module self LORA_KQV_ADAPTER) as [lora|]; simpl;
      rewrite Hsplit; destruct parts as [[q k] v]; simpl;
      destruct (get_adapter_module self KEY_INFUSED) as [ka|];
      destruct (get_adapter_module self VALUE_INFUSED) as [va|];
      simpl in *; done.
  - inversion Hmixed; subst mixed.
    destruct (get_adapter_module self LORA_KQV_ADAPTER) as [lora|]; simpl;
      rewrite Hsplit; destruct parts as [[q k] v]; simpl;
      destruct (get_adapter_module self KEY_INFUSED) as [ka|];
      destruct (get_adapter_module self VALUE_INFUSED) as [va|];
      simpl in *; done.
Qed.

Lemma apply_infused_ok adapter (query x : Tensor elt) sq b ng hn :
  0 < sq -> 0 < b ->
  shape x = [sq; b; ng; hn] ->
  numel (adapter (flattened x)) = numel (flattened x) ->
  apply_infused to_dtype_of adapter query x
  = Ok (to_dtype_of query (with_data x (data (adapter (flattened x))))).
Proof.
  intros Hsq Hb Hshape Hnumel. unfold apply_infused, index. rewrite Hshape. simpl.
  assert (Hflat : reshape x [Some sq; Some b; None] = Ok (flattened x)).
  { unfold reshape, infer_size, flattened, numel. rewrite Hshape. simpl.
    destruct (decide (sq * (b * 1) = 0)); [lia|].
    replace (sq * (b * (ng * (hn * 1)))) with (ng * hn * (sq * (b * 1))) by lia.
    rewrite Nat.Div0.mod_mul, Nat.div_mul by done.
    destruct (decide (0 = 0)); done. }
  rewrite Hflat. simpl.
  unfold reshape, infer_size. simpl. rewrite Hnumel.
  unfold flattened, numel. rewrite Hshape. simpl.
  destruct (decide (sq * (b * (ng * (hn * 1))) = sq * (b * (ng * hn * 1))))
    as [_|Hne]; [|exfalso; apply Hne; lia].
  simpl. unfold with_data. by rewrite Hshape.
Qed.

(** X8: IA3 rescales key and value and nothing else.  On a non-empty input
    of the expected width, with both infused adapters registered and each
    returning as many entries as it is given, the query is the one the split
    yields, and key and value are the adapters' outputs on the flattened key
    and value, in the shapes [sq, b, ng, hn] of the split and cast to the
    query's type. *)
Theorem qkv_infused (self : Self elt) (hidden_states mixed : Tensor elt)
  (key_adapter value_adapter : Tensor elt -> Tensor elt) (sq b : nat) :
  let np := num_attention_heads_per_partition self in
  let ng := num_query_groups_per_partition self in
  let hn := hidden_size_per_attention_head self in
  0 < sq -> 0 < b -> 0 < ng -> 0 < hn ->
  is_adapter_available self = true ->
  get_adapter_module self LORA_KQV_ADAPTER = None ->
  get_adapter_module self KEY_INFUSED = Some key_adapter ->
  get_adapter_module self VALUE_INFUSED = Some value_adapter ->
  (∀ x, numel (key_adapter x) = numel x) ->
  (∀ x, numel (value_adapter x) = numel x) ->
  mixed_qkv_of (linear_qkv self) hidden_states = Some mixed ->
  shape mixed = [sq; b; ng * (np / ng + 2) * hn] ->
  ∃ q k v,
    split_mixed_qkv self mixed = Ok (q, k, v)
    ∧ shape k = [sq; b; ng; hn] ∧ shape v = [sq; b; ng; hn]
    ∧ qkv self hidden_states
      = Ok (q,
            to_dtype_of q (with_data k (data (key_adapter (flattened k)))),
            to_dtype_of q (with_data v (data (value_adapter (flattened v))))).
Proof.
  intros np ng hn Hsq Hb Hng Hhn Hav Hlora Hk Hv Hkn Hvn Hmixed Hshape.
  pose proof (split_mixed_qkv_ok self mixed sq b Hsq Hb Hng Hhn Hshape) as Hsplit.
  fold np ng hn in Hsplit.
  eexists _, _, _. split; [exact Hsplit|]. split; [reflexivity|].
  split; [reflexivity|].
  unfold get_query_key_value_tensors. rewrite Hav, Hlora, Hk, Hv.
  assert (Hstage :
    (match linear_qkv self with
     | TELayerNormColumnParallelLinear fwd =>
         let '(mixed_qkv, layernorm_output) := fwd hidden_states in
         Ok (mixed_qkv, Some layernorm_output)
     | TEColumnParallelLinear fwd => Ok (fwd hidden_states, None)
     | OtherLinear _ => Raise ValueError
     end) = Ok (mixed, match linear_qkv self with
                       | TELayerNormColumnParallelLinear fwd =>
                           Some (fwd hidden_states).2
                       | _ => None
                       end)).
  { destruct (linear_qkv self) as [fwd|fwd|fwd]; simpl in Hmixed; [| |done].
    - destruct (fwd hidden_states). simpl in *. congruence.
    - congruence. }
  rewrite Hstage. simpl. rewrite Hsplit. simpl.
  rewrite (apply_infused_ok key_adapter _ {| shape := [sq; b; ng; hn] |}
             sq b ng hn Hsq Hb eq_refl (Hkn _)).
  simpl.
  rewrite (apply_infused_ok value_adapter _ {| shape := [sq; b; ng; hn] |}
             sq b ng hn Hsq Hb eq_refl (Hvn _)).
  reflexivity.
Qed.

End Laws.

Lemma qkv_outcome_witness :
  no_adapter_fires example_grouped
  ∧ mixed_qkv_of (linear_qkv example_grouped) (iota [1; 1; 4]) = Some (iota [1; 1; 8])
  ∧ ∃ parts,
      get_query_key_value_tensors zadd zcast example_grouped (iota [1; 1; 4])
      = Ok parts.
Proof.
  assert (Hno : no_adapter_fires example_grouped) by (left; reflexivity).
  split; [exact Hno|]. split; [reflexivity|].
  destruct (qkv_outcome zadd zcast example_grouped (iota [1; 1; 4])
              (iota [1; 1; 8]) 1 1 8 Hno eq_refl eq_refl) as (_ & Hok & _).
  apply Hok; simpl; lia.
Defined.

Lemma qkv_partition_witness :
  ∃ query key value,
    get_query_key_value_tensors zadd zcast example_uneven (iota [1; 1; 4])
    = Ok (query, key, value)
    ∧ data query ++ data key ++ data value ≡ₚ data (iota [1; 1; 6]).
Proof.
  apply (qkv_partition zadd zcast example_uneven (iota [1; 1; 4])
           (iota [1; 1; 6]) 1 1).
  - simpl; lia.
  - simpl; lia.
  - simpl; lia.
  - simpl; lia.
  - left. reflexivity.
  - reflexivity.
  - reflexivity.
  - reflexivity.
Defined.

Lemma qkv_lora_splits_witness :
  ∃ q k v qd kd vd,
    split_mixed_qkv example_lora (iota [1; 1; 8]) = Ok (q, k, v)
    ∧ split_mixed_qkv example_lora (tens (iota [1; 1; 4])) = Ok (qd, kd, vd)
    ∧ get_query_key_value_tensors zadd zcast example_lora (iota [1; 1; 4])
      = Ok (zadd q qd, zadd k kd, zadd v vd).
Proof.
  apply (qkv_lora_splits zadd zcast Z.add example_lora (iota [1; 1; 4])
           (iota [1; 1; 8]) tens 1 1).
  - intros x y _. reflexivity.
  - simpl; lia.
  - simpl; lia.
  - simpl; lia.
  - simpl; lia.
  - reflexivity.
  - reflexivity.
  - reflexivity.
  - reflexivity.
  - reflexivity.
  - reflexivity.
  - reflexivity.
  - reflexivity.
  - reflexivity.
Defined.

Lemma qkv_unpaired_infused_witness :
  get_query_key_value_tensors zadd zcast example_lora_key_only (iota [1; 1; 4])
  = Raise AssertionError.
Proof.
  eapply (qkv_unpaired_infused zadd zcast example_lora_key_only (iota [1; 1; 4])
            (iota [1; 1; 8])).
  - reflexivity.
  - reflexivity.
  - reflexivity.
  - discriminate.
Defined.

Lemma qkv_infused_witness :
  ∃ q k v,
    split_mixed_qkv example_ia3 (iota [1; 1; 8]) = Ok (q, k, v)
    ∧ shape k = [1; 1; 2; 1] ∧ shape v = [1; 1; 2; 1]
    ∧ get_query_key_value_tensors zadd zcast example_ia3 (iota [1; 1; 4])
      = Ok (q,
            zcast q (with_data k (data (doubling (flattened k)))),
            zcast q (with_data v (data (doubling (flattened v))))).
Proof.
  apply (qkv_infused zadd zcast example_ia3 (iota [1; 1; 4]) (iota [1; 1; 8])
           doubling doubling 1 1).
  - simpl; lia.
  - simpl; lia.
  - simpl; lia.
  - simpl; lia.
  - reflexivity.
  - reflexivity.
  - reflexivity.
  - reflexivity.
  - intros x. reflexivity.
  - intros x. reflexivity.
  - reflexivity.
  - reflexivity.
Defined.

End MCoreSelfAttentionMixinLaws.

(** ** MLP mixin: assertions and adapter placement *)

Module MCoreMLPMixinLaws.

Import Torch MCoreMLPMixin.

Section Laws.

Context {elt : Type}.
Variable tensor_add : Tensor elt -> Tensor elt -> Tensor elt.
Variable bias_gelu_impl : Tensor elt -> option (Tensor elt) -> Tensor elt.
Variable gelu : Tensor elt -> Tensor elt.

Local Abbreviation fwd := (forward tensor_add bias_gelu_impl gelu).

(** X9: the two assertions of the MLP forward pass fire exactly when
    bias-activation fusion is configured while the linear layers have no
    bias or the activation is not [F.gelu]: with the calls into the layers
    returning, that is when the forward pass ends in [AssertionError]. *)
Theorem forward_assertion_iff (self : Self elt) (hidden_states : Tensor elt) :
  fwd self hidden_states = Raise AssertionError
  ↔ bias_activation_fusion self = true
    ∧ (add_bias_linear self = false ∨ is_gelu (activation_func self) = false).
Proof.
  unfold forward.
  destruct (linear_fc1 self hidden_states) as [x bias].
  destruct (bias_activation_fusion self), (add_bias_linear self),
    (is_gelu (activation_func self)); simpl;
    repeat match goal with
           | |- context [linear_fc2 ?s ?y] => destruct (linear_fc2 s y)
           end;
    (split; [try discriminate; intros _; auto
            |try (intros (? & [?|?]); discriminate); done]).
Qed.

(** X10: a registered [MLP_INFUSED] adapter acts between the activation and
    the second projection, with or without fusion: the forward pass is that
    of the adapter-free module whose second projection first applies the
    adapter. *)
Theorem forward_adapter_placement (self : Self elt) (hidden_states : Tensor elt)
  (adapter : Tensor elt -> Tensor elt) :
  get_adapter_module self MLP_INFUSED = Some adapter ->
  fwd self hidden_states = fwd (with_adapter_folded self adapter) hidden_states.
Proof. intros Ha. unfold forward. rewrite Ha. reflexivity. Qed.

End Laws.

Lemma forward_adapter_placement_witness :
  get_adapter_module example_mlp MLP_INFUSED = Some (scale 2)
  ∧ forward zadd_mlp (λ x _, x) (scale 11) example_mlp
      {| shape := [1; 1; 2]; data := [1; 2]%Z |}
    = Ok ({| shape := [1; 1; 2]; data := [210; 420]%Z |}, None).
Proof.
  split; [reflexivity|].
  rewrite (forward_adapter_placement zadd_mlp (λ x _, x) (scale 11) example_mlp
             _ (scale 2) eq_refl).
  reflexivity.
Defined.

End MCoreMLPMixinLaws.

(** ** Embedding mixin: errors and swapped rows *)

Module MCoreGPTEmbeddingMixinLaws.

Import Torch MCoreGPTEmbeddingMixin MCoreGPTEmbeddingMixinFacts.

Section Laws.

Context {elt ids : Type}.

Implicit Types (self : Self elt ids).

(** X11: with adapters available, the embedding forward pass raises
    [ValueError] exactly when the base output is not three-dimensional, and
    [AttributeError] exactly when it is three-dimensional and no adapter is
    registered under [PTUNING_ADAPTER]; without available adapters it raises
    neither. *)
Theorem forward_errors self (input_ids position_ids : ids) :
  let base := super_forward self input_ids position_ids in
  (forward self input_ids position_ids = Raise ValueError
   ↔ is_adapter_available self = true ∧ length (shape base) ≠ 3)
  ∧ (forward self input_ids position_ids = Raise AttributeError
     ↔ is_adapter_available self = true
       ∧ length (shape base) = 3
       ∧ get_adapter_module self PTUNING_ADAPTER = None).
Proof.
  intros base. unfold forward. fold base.
  destruct (is_adapter_available self);
    [|split; split; (discriminate || by intros [? ?])].
  destruct (shape base) as [|sq [|bs [|hs [|? ?]]]] eqn:Hs; simpl;
    try (split; split; (done || by intros (? & ? & ?))).
  destruct (get_adapter_module self PTUNING_ADAPTER) as [adapter|]; simpl.
  - assert (Hcat : ∀ e, concat0 (prompt_forward adapter bs)
                          (slice_from base (virtual_tokens adapter)) = Raise e ->
                        e = RuntimeError).
    { intros e. unfold concat0.
      repeat (case_decide || case_match); by intros [= <-]. }
    split; split; try (by intros (? & ? & ?)); try (by intros [? ?]);
      destruct (decide (virtual_tokens adapter ≤ sq)); try discriminate;
      intros Hr; by apply Hcat in Hr.
  - split; split; try done. by intros [_ ?].
Qed.

(** X12: when the prompt-tuning adapter fires, it replaces the first
    [virtual_tokens] rows and nothing else: the output has the shape of the
    base output and as many entries, its first [virtual_tokens] rows are the
    virtual embeddings and its remaining rows are those of the base
    output. *)
Theorem forward_replaces_leading_rows self (input_ids position_ids : ids)
  sq bs hs adapter :
  let base := super_forward self input_ids position_ids in
  let v := virtual_tokens adapter in
  shape base = [sq; bs; hs] -> well_formed base ->
  is_adapter_available self = true ->
  get_adapter_module self PTUNING_ADAPTER = Some adapter ->
  shape (prompt_forward adapter bs) = [v; bs; hs] ->
  well_formed (prompt_forward adapter bs) ->
  v ≤ sq ->
  ∃ out, forward self input_ids position_ids = Ok out
         ∧ shape out = [sq; bs; hs]
         ∧ well_formed out
         ∧ take (v * (bs * hs)) (data out) = data (prompt_forward adapter bs)
         ∧ drop (v * (bs * hs)) (data out) = drop (v * (bs * hs)) (data base).
Proof.
  intros base v Hs Hwf Hav Ha Hvs Hvwf Hle.
  rewrite (forward_fires self input_ids position_ids sq bs hs adapter
             Hs Hav Ha Hvs Hle).
  fold base v.
  assert (Hvlen : length (data (prompt_forward adapter bs)) = v * (bs * hs)).
  { unfold well_formed, numel in Hvwf. rewrite Hvs in Hvwf. simpl in Hvwf. lia. }
  assert (Hlen : length (data base) = sq * (bs * hs)).
  { unfold well_formed, numel in Hwf. rewrite Hs in Hwf. simpl in Hwf. lia. }
  eexists. split; [reflexivity|]. simpl. split; [done|]. split; [|split].
  - unfold well_formed, numel. simpl.
    rewrite length_app, length_drop, Hvlen, Hlen.
    pose proof (Nat.mul_le_mono_r v sq (bs * hs) Hle). lia.
  - rewrite take_app_length'; done.
  - rewrite drop_app_length'; done.
Qed.

End Laws.

Lemma forward_replaces_leading_rows_witness :
  ∃ out, forward example_tuned [10; 20; 30]%Z [0; 1; 2]%Z = Ok out
         ∧ shape out = [3; 1; 2]
         ∧ well_formed out
         ∧ take (2 * (1 * 2)) (data out) = [0; 0; 0; 0]%Z
         ∧ drop (2 * (1 * 2)) (data out) = [30; 31]%Z.
Proof.
  apply (forward_replaces_leading_rows example_tuned [10; 20; 30]%Z [0; 1; 2]%Z
           3 1 2 example_prompt).
  - reflexivity.
  - reflexivity.
  - reflexivity.
  - reflexivity.
  - reflexivity.
  - reflexivity.
  - simpl; lia.
Defined.

End MCoreGPTEmbeddingMixinLaws.

(** ** Transformer-layer mixin *)

Module MCoreTransformerLayerMixinLaws.

Import Torch MCoreTransformerLayerMixin.

Section Laws.

Context {elt Mask Inference Scalar : Type}.
Variable tensor_add : Tensor elt -> Tensor elt -> Tensor elt.
Variable make_viewless_tensor : Tensor elt -> Tensor elt.

Local Abbreviation fwd := (forward tensor_add make_viewless_tensor).

(** X13: adapters that contribute nothing leave the layer as it is.  When
    every registered adapter's output added to its input gives the input
    back (as for freshly initialised adapters, and trivially with no adapter
    registered), the forward pass returns the output and the context of the
    layer without adapters. *)
Theorem forward_silent_adapters (self : Self elt Mask Inference Scalar)
  (hidden_states : Tensor elt) (attention_mask : Mask)
  (context : option (Tensor elt)) (context_mask : option Mask)
  (rotary_pos_emb : option (Tensor elt)) (inference_params : option Inference) :
  (∀ name adapter x,
     get_adapter_module self name = Some adapter ->
     tensor_add (adapter x) x = x) ->
  fwd self hidden_states attention_mask context context_mask rotary_pos_emb
    inference_params
  = fwd (without_adapters self) hidden_states attention_mask context
      context_mask rotary_pos_emb inference_params.
Proof.
  intros Hsilent.
  assert (Hadapt : ∀ name p, adapt tensor_add self name p = p).
  { intros name [output bias]. unfold adapt.
    destruct (is_adapter_available self); [|done].
    destruct (get_adapter_module self name) as [adapter|] eqn:Ha; [|done].
    by rewrite (Hsilent name adapter output Ha). }
  assert (Hnone : ∀ name p, adapt tensor_add (without_adapters self) name p = p)
    by done.
  unfold forward. rewrite Hadapt, Hnone. simpl.
  destruct (self_attention self _ _ _ _) as [attention_output bias].
  rewrite Hadapt, Hnone. reflexivity.
Qed.

End Laws.

Lemma layer_add_zeros_like (x : Tensor Z) : layer_add (zeros_like x) x = x.
Proof.
  destruct x as [dims entries]. unfold layer_add, zeros_like. simpl. f_equal.
  induction entries as [|e entries IH]; simpl; [done|]. by f_equal.
Qed.

Lemma forward_silent_adapters_witness :
  forward layer_add (λ x, x) example_layer
    {| shape := [1; 1; 2]; data := [1; 2]%Z |} tt None None None None
  = ({| shape := [1; 1; 2]; data := [12; 24]%Z |}, None).
Proof.
  rewrite (forward_silent_adapters layer_add (λ x, x) example_layer).
  - reflexivity.
  - intros name adapter x [= <-]. apply layer_add_zeros_like.
Defined.

End MCoreTransformerLayerMixinLaws.

(** ** Griffin model: running forward *)

Module GriffinModelLaws.

Import GriffinModel GriffinModelFacts.

Section Laws.

Context `{Framework}.

(** X14: [set_input_tensor] feeds [forward]: after [set_input_tensor(t)], a
    forward pass without input ids returns what a forward pass on [t]
    returns, and leaves the same state with [t] stored. *)
Theorem forward_reads_input_tensor (self : Self) (t : Tensor)
  (position_ids attention_mask labels : option Tensor) :
  forward (set_input_tensor self (Some t)) None position_ids attention_mask labels
  = (set_input_tensor
       (forward self (Some t) position_ids attention_mask labels).1 (Some t),
     (forward self (Some t) position_ids attention_mask labels).2).
Proof.
  unfold forward. simpl.
  change (embedding_forward (set_input_tensor self (Some t)) (Some t))
    with (embedding_forward self (Some t)).
  destruct (embedding_forward self (Some t)) as [hidden|e]; reflexivity.
Qed.

(** X15: a model built with [pre_process] False cannot run: whatever
    methods were called since construction, and whatever its arguments,
    [forward] raises and leaves the model as it was; what it raises is
    [AttributeError], unless computing the position ids has already
    raised. *)
Theorem forward_without_pre_process config vocab_size cap pos_type max_len
  rot_percent rot_base (calls : list Call)
  (input_ids position_ids attention_mask labels : option Tensor) :
  let self :=
    run_all (__init__ config vocab_size cap pos_type max_len rot_percent rot_base
               false) calls in
  ∃ e, forward self input_ids position_ids attention_mask labels
       = (self, Raise e)
       ∧ (e = AttributeError ∨ ∃ t, position_ids_of t = Raise e).
Proof.
  intros self.
  destruct (run_all_flags_fixed false
              (new_LanguageModelEmbedding config vocab_size max_len) calls _
              (init_flags_fixed config vocab_size cap pos_type max_len
                 rot_percent rot_base false))
    as (_ & _ & _ & Hemb & _).
  fold self in Hemb. unfold forward, embedding_forward, griffin_position_ids.
  rewrite Hemb.
  destruct input_ids as [t|]; simpl.
  - destruct (position_ids_of t) as [ids|e] eqn:Hids; simpl; eauto 6.
  - destruct (input_tensor self) as [[t|]|]; simpl; eauto.
    destruct (position_ids_of t) as [ids|e] eqn:Hids; simpl; eauto 6.
Qed.

Lemma run_keeps_submodules self c :
  embedding (run self c) = embedding self
  ∧ rotary_pos_emb (run self c) = rotary_pos_emb self
  ∧ position_embedding_type (run self c) = position_embedding_type self.
Proof.
  destruct c; simpl; try done.
  by destruct (forward_state self input_ids position_ids attention_mask labels)
    as [-> | ->].
Qed.

(** X16: the submodules [forward] reads are fixed at construction: whatever
    methods are called afterwards, [self.embedding] is the embedding built
    by [__init__] when [pre_process] was True and is absent otherwise,
    [self.rotary_pos_emb] is the rotary embedding built by [__init__] when
    the position-embedding type is "rope" and is absent otherwise, and the
    position-embedding type is the one given. *)
Theorem submodules_fixed config vocab_size cap pos_type max_len
  rot_percent rot_base (p : bool) (calls : list Call) :
  let self :=
    run_all (__init__ config vocab_size cap pos_type max_len rot_percent rot_base p)
      calls in
  embedding self
  = (if p then Some (new_LanguageModelEmbedding config vocab_size max_len)
     else None)
  ∧ rotary_pos_emb self
    = (if decide (pos_type = "rope")
       then Some (new_RotaryEmbedding config rot_percent rot_base)
       else None)
  ∧ position_embedding_type self = pos_type.
Proof.
  intros self. subst self. unfold run_all.
  assert (Hgen : ∀ s,
    embedding (foldl run s calls) = embedding s
    ∧ rotary_pos_emb (foldl run s calls) = rotary_pos_emb s
    ∧ position_embedding_type (foldl run s calls) = position_embedding_type s).
  { induction calls as [|c calls IH]; intros s; simpl; [done|].
    destruct (IH (run s c)) as (-> & -> & ->). apply run_keeps_submodules. }
  destruct (Hgen (__init__ config vocab_size cap pos_type max_len rot_percent
                    rot_base p)) as (-> & -> & ->).
  done.
Qed.

Lemma run_input_tensor_unset self c :
  is_set_input_tensor c = false ->
  input_tensor self = None -> input_tensor (run self c) = None.
Proof.
  intros Hc Hunset. destruct c; simpl; try done.
  destruct (forward_state self input_ids position_ids attention_mask labels)
    as [-> | ->]; exact Hunset.
Qed.

(** X17: a forward pass without input ids needs [set_input_tensor] first:
    as long as no call since construction was [set_input_tensor],
    [forward(None, ...)] raises [AttributeError] and leaves the model as it
    was. *)
Theorem forward_needs_input_tensor config vocab_size cap pos_type max_len
  rot_percent rot_base (p : bool) (calls : list Call)
  (position_ids attention_mask labels : option Tensor) :
  forallb (λ c, negb (is_set_input_tensor c)) calls = true ->
  let self :=
    run_all (__init__ config vocab_size cap pos_type max_len rot_percent rot_base p)
      calls in
  forward self None position_ids attention_mask labels
  = (self, Raise AttributeError).
Proof.
  intros Hcalls self.
  assert (Hunset : input_tensor self = None).
  { subst self. unfold run_all.
    generalize (eq_refl : input_tensor (__init__ config vocab_size cap pos_type
                                          max_len rot_percent rot_base p) = None).
    generalize (__init__ config vocab_size cap pos_type max_len rot_percent
                  rot_base p).
    induction calls as [|c calls IH]; intros s Hs; simpl in *; [done|].
    apply andb_prop in Hcalls as [Hc Hrest].
    apply (IH Hrest). apply run_input_tensor_unset; [|done].
    by destruct (is_set_input_tensor c). }
  unfold forward. by rewrite Hunset.
Qed.

End Laws.

Lemma forward_needs_input_tensor_witness :
  @forward example_framework (run_all example_model example_calls)
    None None None None
  = (run_all example_model example_calls, Raise AttributeError).
Proof.
  apply (forward_needs_input_tensor (H := example_framework) tt 256000%Z 30%Z
           "rope" 1024%Z 1%Z 10000%Z true example_calls).
  reflexivity.
Defined.

End GriffinModelLaws.
